(** * github-auto-deployer: the webhook-to-deployment pipeline

    A shallow embedding of the Go sources of the deployer and the
    properties of its pipeline: signature verification, URL normalisation,
    target matching, git synchronisation, command execution and the HTTP
    surface.

    Go strings and byte slices are byte sequences; both are modelled by
    [string] (a list of 8-bit [ascii] characters).  The repository holds two
    implementations of the pipeline side by side; each package is embedded
    in a module of its own:

    - [git], [executor], [webhook]: the packages wired by the command line
      (webhook/handler.go and the git manager and executor it calls);
    - [git2], [executor2], [config2], [server]: the packages wired by
      server/server.go. *)

From Stdlib Require Import String Ascii List ZArith NArith Lia Bool.
Import ListNotations.

Open Scope string_scope.

(** ** Bytes and byte strings *)

Definition byte_of (c : ascii) : Z := Z.of_N (N_of_ascii c).
Definition ascii_of (b : Z) : ascii := ascii_of_N (Z.to_N b).

Fixpoint bytes_of (s : string) : list Z :=
  match s with
  | EmptyString => []
  | String c s' => byte_of c :: bytes_of s'
  end.

Fixpoint string_of (bs : list Z) : string :=
  match bs with
  | [] => EmptyString
  | b :: bs' => String (ascii_of b) (string_of bs')
  end.

(** [s[n:]] and [s[:n]] for [n <= len(s)]. *)
Fixpoint drop (n : nat) (s : string) : string :=
  match n, s with
  | O, _ => s
  | S n', String _ s' => drop n' s'
  | S _, EmptyString => EmptyString
  end.

Fixpoint take (n : nat) (s : string) : string :=
  match n, s with
  | O, _ => EmptyString
  | S n', String c s' => String c (take n' s')
  | S _, EmptyString => EmptyString
  end.

(** The string [s] with the byte at index [i] replaced by [c]. *)
Fixpoint setByte (i : nat) (c : ascii) (s : string) : string :=
  match s, i with
  | EmptyString, _ => EmptyString
  | String _ s', O => String c s'
  | String a s', S i' => String a (setByte i' c s')
  end.

(** The parts of Go's runtime that the repository does not contain and that
    are not modelled here: what [strings.ToLower] and [strings.Fields] do on
    a string that is not pure ASCII (they consult the Unicode tables), the
    text [time.Duration] prints as, and [filepath.Join]. *)
Class GoRuntime := {
  mapToLower : string -> string;
  fieldsUnicode : string -> list string;
  durationString : Z -> string;
  filepathJoin : string -> string -> string
}.

(** ** Package strings of the Go standard library *)
Module strings.

Fixpoint HasPrefix (s prefix : string) {struct prefix} : bool :=
  match prefix, s with
  | EmptyString, _ => true
  | String _ _, EmptyString => false
  | String p prefix', String c s' => Ascii.eqb c p && HasPrefix s' prefix'
  end.

Definition HasSuffix (s suffix : string) : bool :=
  (String.length suffix <=? String.length s)%nat
  && String.eqb (drop (String.length s - String.length suffix) s) suffix.

Definition TrimPrefix (s prefix : string) : string :=
  if HasPrefix s prefix then drop (String.length prefix) s else s.

Definition TrimSuffix (s suffix : string) : string :=
  if HasSuffix s suffix then take (String.length s - String.length suffix) s else s.

Fixpoint Contains (s substr : string) : bool :=
  HasPrefix s substr
  || match s with
     | EmptyString => false
     | String _ s' => Contains s' substr
     end.

(** [strings.Replace(s, old, new, 1)]: the first occurrence only. *)
Fixpoint Replace1 (s old new : string) : string :=
  if HasPrefix s old then new ++ drop (String.length old) s
  else match s with
       | EmptyString => EmptyString
       | String c s' => String c (Replace1 s' old new)
       end.

Definition isASCIIchar (c : ascii) : bool := (byte_of c <? 128)%Z.

Fixpoint isASCII (s : string) : bool :=
  match s with
  | EmptyString => true
  | String c s' => isASCIIchar c && isASCII s'
  end.

Definition lowerByte (c : ascii) : ascii :=
  let b := byte_of c in
  if ((65 <=? b) && (b <=? 90))%Z then ascii_of (b + 32) else c.

Fixpoint lowerBytes (s : string) : string :=
  match s with
  | EmptyString => EmptyString
  | String c s' => String (lowerByte c) (lowerBytes s')
  end.

Definition ToLower `{GoRuntime} (s : string) : string :=
  if isASCII s then lowerBytes s else mapToLower s.

Definition asciiSpace (c : ascii) : bool :=
  let b := byte_of c in
  ((b =? 9) || (b =? 10) || (b =? 11) || (b =? 12) || (b =? 13) || (b =? 32))%Z.

(** Splitting around runs of white space; [cur] is the field being read,
    in reverse. *)
Definition flush (cur : list ascii) (acc : list string) : list string :=
  match cur with
  | [] => acc
  | _ => string_of_list_ascii (rev cur) :: acc
  end.

Fixpoint fieldsFrom (s : string) (cur : list ascii) (acc : list string)
  : list string :=
  match s with
  | EmptyString => rev (flush cur acc)
  | String c s' =>
      if asciiSpace c then fieldsFrom s' [] (flush cur acc)
      else fieldsFrom s' (c :: cur) acc
  end.

Definition Fields `{GoRuntime} (s : string) : list string :=
  if isASCII s then fieldsFrom s [] [] else fieldsUnicode s.

(** [strings.Split(s, sep)] for a separator of one byte. *)
Fixpoint Split (s : string) (sep : ascii) : list string :=
  match s with
  | EmptyString => [EmptyString]
  | String c s' =>
      if Ascii.eqb c sep then EmptyString :: Split s' sep
      else match Split s' sep with
           | first :: rest => String c first :: rest
           | [] => [String c EmptyString]
           end
  end.

End strings.

(** ** encoding/hex *)
Module hex.

Definition hextable : string := "0123456789abcdef".

Definition digit (n : Z) : ascii :=
  match String.get (Z.to_nat n) hextable with
  | Some c => c
  | None => "0"%char
  end.

Fixpoint EncodeToString (src : string) : string :=
  match src with
  | EmptyString => EmptyString
  | String c src' =>
      let v := byte_of c in
      String (digit (Z.shiftr v 4))
        (String (digit (Z.land v 15)) (EncodeToString src'))
  end.

End hex.

(** ** crypto/sha256 (FIPS 180-4) on 32-bit words held in [Z] *)
Module sha256.

Definition wrap32 (x : Z) : Z := x mod 2 ^ 32.
Definition add32 (x y : Z) : Z := wrap32 (x + y).
Definition rotr (n x : Z) : Z :=
  Z.lor (Z.shiftr x n) (wrap32 (Z.shiftl x (32 - n))).
Definition not32 (x : Z) : Z := Z.lxor x 4294967295.

Definition Ch (x y z : Z) : Z := Z.lxor (Z.land x y) (Z.land (not32 x) z).
Definition Maj (x y z : Z) : Z :=
  Z.lxor (Z.lxor (Z.land x y) (Z.land x z)) (Z.land y z).
Definition Sigma0 (x : Z) : Z :=
  Z.lxor (Z.lxor (rotr 2 x) (rotr 13 x)) (rotr 22 x).
Definition Sigma1 (x : Z) : Z :=
  Z.lxor (Z.lxor (rotr 6 x) (rotr 11 x)) (rotr 25 x).
Definition sigma0 (x : Z) : Z :=
  Z.lxor (Z.lxor (rotr 7 x) (rotr 18 x)) (Z.shiftr x 3).
Definition sigma1 (x : Z) : Z :=
  Z.lxor (Z.lxor (rotr 17 x) (rotr 19 x)) (Z.shiftr x 10).

(** The round constants and the initial hash value of FIPS 180-4, in
    decimal. *)
Definition K : list Z :=
  [ 1116352408; 1899447441; 3049323471; 3921009573;
    961987163; 1508970993; 2453635748; 2870763221;
    3624381080; 310598401; 607225278; 1426881987;
    1925078388; 2162078206; 2614888103; 3248222580;
    3835390401; 4022224774; 264347078; 604807628;
    770255983; 1249150122; 1555081692; 1996064986;
    2554220882; 2821834349; 2952996808; 3210313671;
    3336571891; 3584528711; 113926993; 338241895;
    666307205; 773529912; 1294757372; 1396182291;
    1695183700; 1986661051; 2177026350; 2456956037;
    2730485921; 2820302411; 3259730800; 3345764771;
    3516065817; 3600352804; 4094571909; 275423344;
    430227734; 506948616; 659060556; 883997877;
    958139571; 1322822218; 1537002063; 1747873779;
    1955562222; 2024104815; 2227730452; 2361852424;
    2428436474; 2756734187; 3204031479; 3329325298 ]%Z.

Definition init : list Z :=
  [ 1779033703; 3144134277; 1013904242; 2773480762;
    1359893119; 2600822924; 528734635; 1541459225 ]%Z.

Definition w (i : nat) (ws : list Z) : Z := nth i ws 0%Z.

(** One round on the working variables [a; b; c; d; e; f; g; h]. *)
Definition round (k wt : Z) (v : list Z) : list Z :=
  let t1 := add32 (add32 (add32 (add32 (w 7 v) (Sigma1 (w 4 v)))
                                (Ch (w 4 v) (w 5 v) (w 6 v))) k) wt in
  let t2 := add32 (Sigma0 (w 0 v)) (Maj (w 0 v) (w 1 v) (w 2 v)) in
  [ add32 t1 t2; w 0 v; w 1 v; w 2 v; add32 (w 3 v) t1; w 4 v; w 5 v; w 6 v ].

(** The 64 rounds; [ws] is the window W[t .. t+15] of the message
    schedule. *)
Fixpoint rounds (ks : list Z) (ws : list Z) (v : list Z) : list Z :=
  match ks with
  | [] => v
  | k :: ks' =>
      let next := add32 (add32 (sigma1 (w 14 ws)) (w 9 ws))
                        (add32 (sigma0 (w 1 ws)) (w 0 ws)) in
      rounds ks' (tl ws ++ [next])%list (round k (w 0 ws) v)
  end.

(** Big-endian 32-bit words of a block of bytes. *)
Fixpoint words (bs : list Z) : list Z :=
  match bs with
  | b0 :: b1 :: b2 :: b3 :: bs' =>
      (((b0 * 256 + b1) * 256 + b2) * 256 + b3)%Z :: words bs'
  | _ => []
  end.

Definition block (h : list Z) (bs : list Z) : list Z :=
  map (fun p => add32 (fst p) (snd p)) (combine h (rounds K (words bs) h)).

Fixpoint blocks (n : nat) (h : list Z) (bs : list Z) : list Z :=
  match n with
  | O => h
  | S n' => blocks n' (block h (firstn 64 bs)) (skipn 64 bs)
  end.

(** Big-endian bytes of a word of [n] bytes. *)
Fixpoint bigEndian (n : nat) (x : Z) : list Z :=
  match n with
  | O => []
  | S n' => (Z.shiftr x (8 * Z.of_nat n') mod 256)%Z :: bigEndian n' x
  end.

Definition pad (bs : list Z) : list Z :=
  let len := Z.of_nat (List.length bs) in
  let zeros := Z.to_nat ((55 - len) mod 64) in
  (bs ++ [128%Z] ++ repeat 0%Z zeros ++ bigEndian 8 (len * 8 mod 2 ^ 64))%list.

Definition Sum256 (data : string) : string :=
  let bs := pad (bytes_of data) in
  string_of (flat_map (bigEndian 4) (blocks (List.length bs / 64) init bs)).

Definition BlockSize : nat := 64.

End sha256.

(** ** crypto/hmac (RFC 2104) and crypto/subtle *)
Module hmac.

Definition xorPad (b : Z) (key : list Z) : list Z :=
  map (fun k => Z.lxor k b) key.

(** [hmac.New(sha256.New, key)], [Write(message)], [Sum(nil)]. *)
Definition Sum (key message : string) : string :=
  let k0 := if (sha256.BlockSize <? String.length key)%nat
            then bytes_of (sha256.Sum256 key) else bytes_of key in
  let k := (k0 ++ repeat 0%Z (sha256.BlockSize - List.length k0))%list in
  let inner := sha256.Sum256 (string_of (xorPad 54 k) ++ message) in
  sha256.Sum256 (string_of (xorPad 92 k) ++ inner).

(** [subtle.ConstantTimeCompare]: the bytes are folded with xor and or,
    with no early exit. *)
Fixpoint xorFold (x y : string) (v : Z) : Z :=
  match x, y with
  | String a x', String b y' =>
      xorFold x' y' (Z.lor v (Z.lxor (byte_of a) (byte_of b)))
  | _, _ => v
  end.

Definition ConstantTimeCompare (x y : string) : Z :=
  if negb (String.length x =? String.length y)%nat then 0%Z
  else if (xorFold x y 0 =? 0)%Z then 1%Z else 0%Z.

Definition Equal (mac1 mac2 : string) : bool :=
  (ConstantTimeCompare mac1 mac2 =? 1)%Z.

End hmac.

(** ** Errors

    A Go [error] is modelled by the value behind the interface: the two
    error types the repository declares, and [errorString] for the errors
    made by [fmt.Errorf] and [errors.New], which carry their text only. *)
Inductive error : Type :=
| errorString (s : string)
| ConflictError (Message : string)
| CommandError (Command Stdout Stderr Err : string).

Definition nl : string := String (ascii_of_nat 10) EmptyString.
Definition dquote : string := String (ascii_of_nat 34) EmptyString.

(** The [Error()] method.  [fmt.Sprintf] with the verbs [%s] and [%v] on
    strings and errors is concatenation. *)
Definition Error (e : error) : string :=
  match e with
  | errorString s => s
  | ConflictError Message => "merge conflict: " ++ Message
  | CommandError Command Stdout Stderr Err =>
      ("command failed: " ++ Command ++ nl)
      ++ ("error: " ++ Err ++ nl)
      ++ (if String.eqb Stdout "" then "" else "stdout:" ++ nl ++ Stdout ++ nl)
      ++ (if String.eqb Stderr "" then "" else "stderr:" ++ nl ++ Stderr ++ nl)
  end.

(** ** os/exec, the file system, SMTP and the scheduler

    A command is what [exec.Command(name, args...)] with [cmd.Dir] set
    describes.  When it runs, the operating system answers with an [Exit]:
    whether the process started, its exit code, what it wrote, the text of
    the error [Run] reports, and how long it ran. *)
Record Cmd : Type := {
  Name : string;
  Args : list string;
  Dir : string
}.

Record Exit : Type := {
  started : bool;
  exitCode : Z;
  Stdout : string;
  Stderr : string;
  Combined : string;
  errText : string;
  elapsed : Z;
  written : Z -> string
}.

(** [cmd.Run()], [cmd.Output()] and [cmd.CombinedOutput()] return a non-nil
    error when the process did not start or exited with a non-zero code. *)
Definition failed (x : Exit) : bool :=
  negb (started x) || negb (exitCode x =? 0)%Z.

(** The notifications handed to the SMTP dialer; the rendering of subject
    and body (which embeds the current time) is left out. *)
Inductive Mail : Type :=
| FailureMail (repoPath branch errorMsg : string)
| ConflictMail (repoPath branch conflictDetails : string)
| CommandFailureMail (repoPath branch command errorMsg : string).

(** The environment: [spawn] runs a command to completion, [interrupt]
    is the world left by a command killed after the given time,
    [notExist] answers [os.IsNotExist(os.Stat(path))], [dialAndSend] is the
    SMTP delivery, and [timerFirst] is the choice [select] makes when the
    timer and the completion are ready together. *)
Class OS (World : Type) := {
  spawn : Cmd -> World -> Exit * World;
  interrupt : Cmd -> Z -> World -> World;
  notExist : string -> World -> bool;
  dialAndSend : Mail -> World -> option string * World;
  timerFirst : World -> bool
}.

(** What a run of the program does, in order. *)
Inductive Event : Type :=
| Exec (c : Cmd)
| Killed (c : Cmd)
| Mailed (m : Mail).

Record State (World : Type) : Type := {
  world : World;
  trace : list Event
}.
Arguments world {World}.
Arguments trace {World}.

(** Effectful code threads the state: a small state monad. *)
Definition M (World A : Type) : Type := State World -> A * State World.

Definition ret {World A : Type} (a : A) : M World A := fun s => (a, s).

Definition bind {World A B : Type} (m : M World A) (k : A -> M World B)
  : M World B :=
  fun s => let (a, s') := m s in k a s'.

Notation "x <- m ;; k" := (bind m (fun x => k))
  (at level 61, m at next level, right associativity).
Notation "m ;;; k" := (bind m (fun _ => k))
  (at level 61, right associativity).

Definition emit {World : Type} (e : Event) : M World unit :=
  fun s => (tt, {| world := world s; trace := (trace s ++ [e])%list |}).

Definition run {World : Type} `{OS World} (c : Cmd) : M World Exit :=
  fun s =>
    let (x, w') := spawn c (world s) in
    (x, {| world := w'; trace := (trace s ++ [Exec c])%list |}).

Definition kill {World : Type} `{OS World} (c : Cmd) (after : Z)
  : M World unit :=
  fun s => (tt, {| world := interrupt c after (world s);
                   trace := (trace s ++ [Killed c])%list |}).

Definition stat_notExist {World : Type} `{OS World} (path : string)
  : M World bool :=
  fun s => (notExist path (world s), s).

Definition send {World : Type} `{OS World} (m : Mail)
  : M World (option error) :=
  fun s =>
    let (r, w') := dialAndSend m (world s) in
    (match r with
     | Some msg => Some (errorString ("failed to send email: " ++ msg))
     | None => None
     end,
     {| world := w'; trace := (trace s ++ [Mailed m])%list |}).

Fixpoint forEach {World A : Type} (l : list A) (body : A -> M World unit)
  : M World unit :=
  match l with
  | [] => ret tt
  | a :: l' => body a ;;; forEach l' body
  end.

(** ** net/http: what the handlers read of a request and write back

    [Body] is the outcome of [io.ReadAll(r.Body)]: [None] when reading
    fails.  [Header name] is [r.Header.Get(name)], the empty string when the
    header is absent. *)
Module http.

Record Request : Type := {
  Method : string;
  Header : string -> string;
  Body : option string
}.

Record Response : Type := {
  StatusCode : Z;
  Written : string
}.

Definition MethodPost : string := "POST".
Definition StatusOK : Z := 200.
Definition StatusBadRequest : Z := 400.
Definition StatusUnauthorized : Z := 401.
Definition StatusMethodNotAllowed : Z := 405.

(** [http.Error(w, msg, code)]. *)
Definition Error (msg : string) (code : Z) : Response :=
  {| StatusCode := code; Written := msg ++ nl |}.

End http.

(** ** time *)
Module time.

Definition Nanosecond : Z := 1.
Definition Second : Z := 1000000000 * Nanosecond.
Definition Minute : Z := 60 * Second.

End time.

(** ** internal/config (config.go) *)
Module config.

Record GitHubConfig : Type := {
  AppID : Z;
  PrivateKeyPath : string;
  WebhookSecret : string
}.

Record SMTPConfig : Type := {
  Host : string;
  Port : Z;
  Username : string;
  Password : string;
  From : string;
  To : string
}.

Record ServerConfig : Type := {
  ServerPort : Z
}.

Record WatchedFolder : Type := {
  Path : string;
  Command : string;
  Branch : string;
  RepoURL : string
}.

Record Config : Type := {
  GitHub : GitHubConfig;
  SMTP : SMTPConfig;
  Server : ServerConfig;
  Folders : list WatchedFolder
}.

End config.

(** ** internal/git, the manager called by the webhook handler *)
Module git.

Record Manager : Type := {
  repoPath : string
}.

Definition NewManager (repoPath : string) : Manager :=
  {| repoPath := repoPath |}.

Definition Pull {World : Type} `{OS World} (m : Manager)
  : M World (option error) :=
  fetch <- run {| Name := "git"; Args := ["fetch"; "origin"];
                  Dir := repoPath m |} ;;
  if failed fetch then
    ret (Some (errorString ("git fetch failed: " ++ errText fetch ++ nl
                            ++ "Output: " ++ Combined fetch)))
  else
    pull <- run {| Name := "git"; Args := ["pull"; "origin"];
                   Dir := repoPath m |} ;;
    if failed pull then
      ret (Some (errorString ("git pull failed: " ++ errText pull ++ nl
                              ++ "Output: " ++ Combined pull)))
    else ret None.

Definition normalizeGitURL `{GoRuntime} (url : string) : string :=
  let url := strings.TrimSuffix url ".git" in
  let url :=
    if strings.HasPrefix url "git@" then
      let url := strings.Replace1 url ":" "/" in
      strings.Replace1 url "git@" "https://"
    else url in
  let url :=
    if negb (strings.HasPrefix url "http://")
       && negb (strings.HasPrefix url "https://")
    then "https://" ++ url
    else url in
  strings.ToLower url.

Definition CompareURLs `{GoRuntime} (url1 url2 : string) : bool :=
  String.eqb (normalizeGitURL url1) (normalizeGitURL url2).

End git.

(** ** internal/executor, the executor called by the webhook handler *)
Module executor.

Record Executor : Type := {
  workDir : string;
  timeout : Z
}.

Definition NewExecutor (workDir : string) : Executor :=
  {| workDir := workDir; timeout := 10 * time.Minute |}.

Definition SetTimeout (e : Executor) (timeout : Z) : Executor :=
  {| workDir := workDir e; timeout := timeout |}.

(** The [select]: the timer of length [timeout] against the completion of a
    process that runs for [elapsed x]. *)
Definition timerFires {World : Type} `{OS World} (timeout : Z) (x : Exit)
  (w : World) : bool :=
  (timeout <? elapsed x)%Z || ((timeout =? elapsed x)%Z && timerFirst w).

Definition Execute {World : Type} `{GoRuntime} `{OS World} (e : Executor)
  (command : string) : M World (string * option error) :=
  match strings.Fields command with
  | [] => ret ("", Some (errorString "empty command"))
  | name :: args =>
      let cmd := {| Name := name; Args := args; Dir := workDir e |} in
      fun s =>
        let (x, w') := spawn cmd (world s) in
        let tr := (trace s ++ [Exec cmd])%list in
        if timerFires (timeout e) x (world s) then
          (("", Some (errorString ("command timed out after "
                                   ++ durationString (timeout e)))),
           if started x then
             {| world := interrupt cmd (timeout e) (world s);
                trace := (tr ++ [Killed cmd])%list |}
           else {| world := w'; trace := tr |})
        else if failed x then
          ((Combined x,
            Some (errorString ("command failed: " ++ errText x ++ nl
                               ++ "Output: " ++ Combined x))),
           {| world := w'; trace := tr |})
        else ((Combined x, None), {| world := w'; trace := tr |})
  end.

End executor.

(** ** internal/notifier *)
Module notifier.

Record EmailNotifier : Type := {
  host : string;
  port : Z;
  username : string;
  password : string;
  from : string;
  to : string
}.

Definition NewEmailNotifier (host : string) (port : Z)
  (username password from to : string) : EmailNotifier :=
  {| host := host; port := port; username := username;
     password := password; from := from; to := to |}.

Definition SendFailureNotification {World : Type} `{OS World}
  (n : EmailNotifier) (repoPath branch errorMsg : string)
  : M World (option error) :=
  send (FailureMail repoPath branch errorMsg).

End notifier.

(** ** encoding/json: [json.Unmarshal] of a request body into an event
    struct; [None] when the body does not parse. *)
Class Decoder (A : Type) := {
  Unmarshal : string -> option A
}.

(** ** internal/webhook (handler.go) *)
Module webhook.

Import config.

Record PushEvent : Type := {
  Ref : string;
  FullName : string;
  CloneURL : string
}.

Record Handler : Type := {
  config : Config;
  notifier : notifier.EmailNotifier
}.

Definition NewHandler (cfg : Config) : Handler :=
  {| config := cfg;
     notifier := notifier.NewEmailNotifier
                   (Host (SMTP cfg)) (Port (SMTP cfg)) (Username (SMTP cfg))
                   (Password (SMTP cfg)) (From (SMTP cfg)) (To (SMTP cfg)) |}.

Definition verifySignature (h : Handler) (payload signature : string) : bool :=
  if String.eqb signature "" then false
  else
    let signature := strings.TrimPrefix signature "sha256=" in
    let expectedMAC :=
      hex.EncodeToString (hmac.Sum (WebhookSecret (GitHub (config h))) payload) in
    hmac.Equal signature expectedMAC.

Definition processUpdate {World : Type} `{GoRuntime} `{OS World}
  (h : Handler) (folder : WatchedFolder) : M World (option error) :=
  let gitMgr := git.NewManager (Path folder) in
  pulled <- git.Pull gitMgr ;;
  match pulled with
  | Some err => ret (Some (errorString ("git pull failed: " ++ Error err)))
  | None =>
      if negb (String.eqb (Command folder) "") then
        let exec := executor.NewExecutor (Path folder) in
        out <- executor.Execute exec (Command folder) ;;
        match snd out with
        | Some err =>
            ret (Some (errorString ("command execution failed: " ++ Error err)))
        | None => ret None
        end
      else ret None
  end.

(** The body of the loop over the watched folders, once a folder has
    matched. *)
Definition deploy {World : Type} `{GoRuntime} `{OS World}
  (h : Handler) (branch : string) (folder : WatchedFolder) : M World unit :=
  updated <- processUpdate h folder ;;
  match updated with
  | Some err =>
      notifier.SendFailureNotification (notifier h) (Path folder) branch
        (Error err) ;;;
      ret tt
  | None => ret tt
  end.

Definition processPushEvent {World : Type} `{GoRuntime} `{OS World}
  (h : Handler) (event : PushEvent) : M World unit :=
  let branch := strings.TrimPrefix (Ref event) "refs/heads/" in
  forEach (Folders (config h)) (fun folder =>
    if negb (git.CompareURLs (RepoURL folder) (CloneURL event)) then ret tt
    else if negb (String.eqb (Branch folder) branch) then ret tt
    else deploy h branch folder).

(** [ServeHTTP] answers the request and, on its last path, starts
    [processPushEvent] on the decoded event in a goroutine of its own: the
    second component is the event handed to it. *)
Definition ServeHTTP `{Decoder PushEvent} (h : Handler) (r : http.Request)
  : http.Response * option PushEvent :=
  if negb (String.eqb (http.Method r) http.MethodPost) then
    (http.Error "Method not allowed" http.StatusMethodNotAllowed, None)
  else
    match http.Body r with
    | None => (http.Error "Bad request" http.StatusBadRequest, None)
    | Some body =>
        let signature := http.Header r "X-Hub-Signature-256" in
        if negb (verifySignature h body signature) then
          (http.Error "Unauthorized" http.StatusUnauthorized, None)
        else
          let eventType := http.Header r "X-GitHub-Event" in
          if negb (String.eqb eventType "push") then
            ({| http.StatusCode := http.StatusOK; http.Written := "" |}, None)
          else
            match Unmarshal body with
            | None => (http.Error "Bad request" http.StatusBadRequest, None)
            | Some pushEvent =>
                ({| http.StatusCode := http.StatusOK; http.Written := "OK" |},
                 Some pushEvent)
            end
    end.

End webhook.

(** ** internal/config, the schema read by the server *)
Module config2.

Record GitHubConfig : Type := {
  AppID : Z;
  InstallationID : Z;
  PrivateKeyPath : string;
  WebhookSecret : string
}.

Record SMTPConfig : Type := {
  Host : string;
  Port : Z;
  Username : string;
  Password : string;
  From : string;
  To : string
}.

Record ServerConfig : Type := {
  ServerPort : Z;
  ServerHost : string
}.

Record WatcherConfig : Type := {
  Path : string;
  Branch : string;
  Command : string;
  RepoOwner : string;
  RepoName : string
}.

Record Config : Type := {
  GitHub : GitHubConfig;
  SMTP : SMTPConfig;
  Server : ServerConfig;
  Watchers : list WatcherConfig
}.

Fixpoint findByRepo (ws : list WatcherConfig) (owner name : string)
  : option WatcherConfig :=
  match ws with
  | [] => None
  | w :: ws' =>
      if String.eqb (RepoOwner w) owner && String.eqb (RepoName w) name
      then Some w
      else findByRepo ws' owner name
  end.

Definition GetWatcherByRepo (c : Config) (owner name : string)
  : WatcherConfig + error :=
  match findByRepo (Watchers c) owner name with
  | Some w => inl w
  | None =>
      inr (errorString ("watcher for repository " ++ owner ++ "/" ++ name
                        ++ " not found"))
  end.

(** Writing the configuration file ([os.MkdirAll], [json.MarshalIndent],
    [os.WriteFile]): the environment answers with the text of the error, if
    any. *)
Class Store (World : Type) := {
  persist : Config -> World -> option string * World
}.

Definition Save {World : Type} `{Store World} (c : Config)
  : M World (option error) :=
  fun s =>
    let (r, w') := persist c (world s) in
    (match r with
     | Some msg => Some (errorString msg)
     | None => None
     end,
     {| world := w'; trace := trace s |}).

Fixpoint findByPath (ws : list WatcherConfig) (path : string)
  : option WatcherConfig :=
  match ws with
  | [] => None
  | w :: ws' =>
      if String.eqb (Path w) path then Some w else findByPath ws' path
  end.

Definition withWatchers (c : Config) (ws : list WatcherConfig) : Config :=
  {| GitHub := GitHub c; SMTP := SMTP c; Server := Server c; Watchers := ws |}.

(** [AddWatcher] and [RemoveWatcher] update the configuration in place; the
    configuration they leave is returned beside the error. *)
Definition AddWatcher {World : Type} `{Store World} (c : Config)
  (watcher : WatcherConfig) : M World (Config * option error) :=
  match findByPath (Watchers c) (Path watcher) with
  | Some _ =>
      ret (c, Some (errorString ("watcher for path " ++ Path watcher
                                 ++ " already exists")))
  | None =>
      let c' := withWatchers c (Watchers c ++ [watcher])%list in
      saved <- Save c' ;;
      ret (c', saved)
  end.

(** The loop of [RemoveWatcher]: the watchers kept, and whether one was
    dropped. *)
Fixpoint removeByPath (ws : list WatcherConfig) (path : string)
  (found : bool) (newWatchers : list WatcherConfig)
  : bool * list WatcherConfig :=
  match ws with
  | [] => (found, newWatchers)
  | w :: ws' =>
      if negb (String.eqb (Path w) path)
      then removeByPath ws' path found (newWatchers ++ [w])%list
      else removeByPath ws' path true newWatchers
  end.

Definition RemoveWatcher {World : Type} `{Store World} (c : Config)
  (path : string) : M World (Config * option error) :=
  let (found, newWatchers) := removeByPath (Watchers c) path false [] in
  if negb found then
    ret (c, Some (errorString ("watcher for path " ++ path ++ " not found")))
  else
    let c' := withWatchers c newWatchers in
    saved <- Save c' ;;
    ret (c', saved).

Definition GetWatcher (c : Config) (path : string) : WatcherConfig + error :=
  match findByPath (Watchers c) path with
  | Some w => inl w
  | None => inr (errorString ("watcher for path " ++ path ++ " not found"))
  end.

End config2.

(** ** internal/git, the manager called by the server *)
Module git2.

Record Manager : Type := {
  repoPath : string
}.

Definition NewManager {World : Type} `{GoRuntime} `{OS World}
  (repoPath : string) : M World (Manager + error) :=
  let gitDir := filepathJoin repoPath ".git" in
  missing <- stat_notExist gitDir ;;
  if missing then
    ret (inr (errorString ("not a git repository: " ++ repoPath)))
  else ret (inl {| repoPath := repoPath |}).

Definition FetchAndPull {World : Type} `{OS World} (m : Manager)
  (branch : string) : M World (option error) :=
  fetch <- run {| Name := "git"; Args := ["fetch"; "origin"; branch];
                  Dir := repoPath m |} ;;
  if failed fetch then
    ret (Some (errorString ("git fetch failed: " ++ Stderr fetch)))
  else
    pull <- run {| Name := "git"; Args := ["pull"; "origin"; branch];
                   Dir := repoPath m |} ;;
    if failed pull then
      if strings.Contains (Stderr pull) "CONFLICT"
         || strings.Contains (Stdout pull) "CONFLICT"
      then ret (Some (ConflictError (Stderr pull ++ Stdout pull)))
      else ret (Some (errorString ("git pull failed: " ++ Stderr pull)))
    else ret None.

Definition ParseRepoInfo (url : string) : string * string * option error :=
  let url := strings.TrimSuffix url ".git" in
  let unparsed :=
    ("", "",
     Some (errorString ("unable to parse repository info from URL: " ++ url)))
  in
  if strings.HasPrefix url "https://github.com/" then
    match strings.Split (strings.TrimPrefix url "https://github.com/")
            "/"%char with
    | owner :: repo :: _ => (owner, repo, None)
    | _ => unparsed
    end
  else if strings.HasPrefix url "git@github.com:" then
    match strings.Split (strings.TrimPrefix url "git@github.com:")
            "/"%char with
    | owner :: repo :: _ => (owner, repo, None)
    | _ => unparsed
    end
  else unparsed.

Definition IsConflictError (err : error) : bool :=
  match err with
  | ConflictError _ => true
  | _ => false
  end.

End git2.

(** ** internal/executor (command.go), the executor called by the server *)
Module executor2.

Record Executor : Type := {
  workDir : string
}.

Definition NewExecutor (workDir : string) : Executor :=
  {| workDir := workDir |}.

Definition Execute {World : Type} `{OS World} (e : Executor)
  (command : string) : M World (option error) :=
  x <- run {| Name := "sh"; Args := ["-c"; command]; Dir := workDir e |} ;;
  if failed x then
    ret (Some (CommandError command (Stdout x) (Stderr x) (errText x)))
  else ret None.

Definition IsCommandError (err : error) : bool :=
  match err with
  | CommandError _ _ _ _ => true
  | _ => false
  end.

End executor2.

(** ** internal/email (smtp.go) *)
Module email.

Record SMTPClient : Type := {
  host : string;
  port : Z;
  username : string;
  password : string;
  from : string;
  to : string
}.

Definition NewSMTPClient (host : string) (port : Z)
  (username password from to : string) : SMTPClient :=
  {| host := host; port := port; username := username;
     password := password; from := from; to := to |}.

Definition SendFailureNotification {World : Type} `{OS World}
  (s : SMTPClient) (repoPath branch errorMsg : string)
  : M World (option error) :=
  send (FailureMail repoPath branch errorMsg).

Definition SendConflictNotification {World : Type} `{OS World}
  (s : SMTPClient) (repoPath branch conflictDetails : string)
  : M World (option error) :=
  send (ConflictMail repoPath branch conflictDetails).

Definition SendCommandFailureNotification {World : Type} `{OS World}
  (s : SMTPClient) (repoPath branch command errorMsg : string)
  : M World (option error) :=
  send (CommandFailureMail repoPath branch command errorMsg).

End email.

(** ** internal/github (auth.go) and the go-github library

    [github.ValidateSignature] belongs to go-github, outside the
    repository, as does the [github.PushEvent] struct, of which the server
    reads three values through nil-safe getters. *)
Class GoGithub := {
  ValidateSignature : string -> string -> string -> option error
}.

Module github.

Record PushEvent : Type := {
  GetRef : string;
  GetRepoOwnerLogin : string;
  GetRepoName : string
}.

Definition ValidateWebhookSignature `{GoGithub}
  (payload signature secret : string) : bool :=
  match ValidateSignature signature payload secret with
  | None => true
  | Some _ => false
  end.

End github.

(** ** internal/server (server.go) *)
Module server.

Import config2.

Record Server : Type := {
  config : Config;
  emailClient : email.SMTPClient
}.

Definition NewServer (cfg : Config) : Server :=
  {| config := cfg;
     emailClient := email.NewSMTPClient
                      (Host (SMTP cfg)) (Port (SMTP cfg)) (Username (SMTP cfg))
                      (Password (SMTP cfg)) (From (SMTP cfg)) (To (SMTP cfg)) |}.

Definition extractBranchFromRef (ref : string) : string :=
  let prefix := "refs/heads/" in
  if (String.length prefix <? String.length ref)%nat
     && String.eqb (take (String.length prefix) ref) prefix
  then drop (String.length prefix) ref
  else ref.

Definition handlePushEvent {World : Type} `{GoRuntime} `{OS World}
  (s : Server) (event : github.PushEvent) : M World unit :=
  let repoOwner := github.GetRepoOwnerLogin event in
  let repoName := github.GetRepoName event in
  let branch := extractBranchFromRef (github.GetRef event) in
  match GetWatcherByRepo (config s) repoOwner repoName with
  | inr _ => ret tt
  | inl watcher =>
      if negb (String.eqb (Branch watcher) branch) then ret tt
      else
        created <- git2.NewManager (Path watcher) ;;
        match created with
        | inr err =>
            email.SendFailureNotification (emailClient s) (Path watcher)
              branch (Error err) ;;;
            ret tt
        | inl gitMgr =>
            synced <- git2.FetchAndPull gitMgr branch ;;
            match synced with
            | Some err =>
                if git2.IsConflictError err then
                  email.SendConflictNotification (emailClient s)
                    (Path watcher) branch (Error err) ;;;
                  ret tt
                else
                  email.SendFailureNotification (emailClient s)
                    (Path watcher) branch (Error err) ;;;
                  ret tt
            | None =>
                if negb (String.eqb (Command watcher) "") then
                  let exec := executor2.NewExecutor (Path watcher) in
                  ran <- executor2.Execute exec (Command watcher) ;;
                  match ran with
                  | Some err =>
                      email.SendCommandFailureNotification (emailClient s)
                        (Path watcher) branch (Command watcher) (Error err) ;;;
                      ret tt
                  | None => ret tt
                  end
                else ret tt
            end
        end
  end.

Definition processing : string :=
  "{" ++ dquote ++ "status" ++ dquote ++ ":" ++ dquote ++ "processing"
  ++ dquote ++ "}" ++ nl.

(** As for the webhook handler, the second component is the event handed to
    the goroutine that runs [handlePushEvent]. *)
Definition handleWebhook `{GoGithub} `{Decoder github.PushEvent}
  (s : Server) (r : http.Request) : http.Response * option github.PushEvent :=
  if negb (String.eqb (http.Method r) http.MethodPost) then
    (http.Error "Method not allowed" http.StatusMethodNotAllowed, None)
  else
    match http.Body r with
    | None => (http.Error "Error reading payload" http.StatusBadRequest, None)
    | Some payload =>
        let signature := http.Header r "X-Hub-Signature-256" in
        if negb (github.ValidateWebhookSignature payload signature
                   (WebhookSecret (GitHub (config s)))) then
          (http.Error "Invalid signature" http.StatusUnauthorized, None)
        else
          let event := http.Header r "X-GitHub-Event" in
          if negb (String.eqb event "push") then
            ({| http.StatusCode := http.StatusOK; http.Written := "" |}, None)
          else
            match Unmarshal payload with
            | None =>
                (http.Error "Error parsing event" http.StatusBadRequest, None)
            | Some pushEvent =>
                ({| http.StatusCode := http.StatusOK;
                    http.Written := processing |},
                 Some pushEvent)
            end
    end.

End server.

(** ** Vocabulary of the properties

    The lower-case hexadecimal HMAC-SHA256 of a payload under the secret the
    handler is configured with. *)
Definition signatureHex (h : webhook.Handler) (payload : string) : string :=
  hex.EncodeToString
    (hmac.Sum (config.WebhookSecret (config.GitHub (webhook.config h))) payload).

(** The normalisation of a remote URL in the words of the specification:
    strip a trailing [.git]; rewrite the SSH shorthand [git@host:path] to
    [https://host/path]; prepend [https://] when there is no [http://] or
    [https://] scheme; lower-case the result. *)
Module spec.

(** [s] cut at its first colon. *)
Fixpoint splitColon (s : string) : option (string * string) :=
  match s with
  | EmptyString => None
  | String c s' =>
      if Ascii.eqb c ":"%char then Some (EmptyString, s')
      else match splitColon s' with
           | Some (host, path) => Some (String c host, path)
           | None => None
           end
  end.

Definition sshShorthand (url : string) : option (string * string) :=
  if strings.HasPrefix url "git@" then splitColon (drop 4 url) else None.

Definition hasScheme (url : string) : bool :=
  strings.HasPrefix url "http://" || strings.HasPrefix url "https://".

Definition normalize `{GoRuntime} (url : string) : string :=
  let stripped := strings.TrimSuffix url ".git" in
  let rewritten :=
    match sshShorthand stripped with
    | Some (host, path) => "https://" ++ host ++ "/" ++ path
    | None => stripped
    end in
  let schemed :=
    if hasScheme rewritten then rewritten else "https://" ++ rewritten in
  strings.ToLower schemed.

(** The same steps with the second one as the code takes it: a URL that
    starts with [git@] has that prefix replaced by [https://], and the first
    colon after it, if there is one, by a slash. *)
Definition gitAtToHttps (url : string) : string :=
  if strings.HasPrefix url "git@" then
    "https://"
    ++ match splitColon (drop 4 url) with
       | Some (host, path) => host ++ "/" ++ path
       | None => drop 4 url
       end
  else url.

Definition normalizeGitAt `{GoRuntime} (url : string) : string :=
  let stripped := strings.TrimSuffix url ".git" in
  let rewritten := gitAtToHttps stripped in
  let schemed :=
    if hasScheme rewritten then rewritten else "https://" ++ rewritten in
  strings.ToLower schemed.

End spec.

(** A watched folder matches a push event when its remote compares equal to
    the clone URL and its branch is the branch of the pushed ref. *)
Definition matches `{GoRuntime} (event : webhook.PushEvent)
  (folder : config.WatchedFolder) : bool :=
  git.CompareURLs (config.RepoURL folder) (webhook.CloneURL event)
  && String.eqb (config.Branch folder)
       (strings.TrimPrefix (webhook.Ref event) "refs/heads/").



(** No event of [evs] is a mail. *)
Definition mailless (evs : list Event) : bool :=
  forallb (fun e => match e with Mailed _ => false | _ => true end) evs.

(** Every mail among [evs] is a generic failure notification for
    [branch]. *)
Definition failureMailsOnly (branch : string) (evs : list Event) : Prop :=
  forall m : Mail,
    In (Mailed m) evs ->
    exists path msg : string, m = FailureMail path branch msg.

(** A command made of white space only. *)
Fixpoint blank (command : string) : bool :=
  match command with
  | EmptyString => true
  | String c command' => strings.asciiSpace c && blank command'
  end.

(** ** A concrete environment

    The world is the script of the outcomes of the commands still to run;
    every file exists, mail is delivered, and the timer wins a tie. *)
Module sample.

#[export] Instance runtime : GoRuntime := {|
  mapToLower := fun s => s;
  fieldsUnicode := fun s => [s];
  durationString := fun d =>
    if (d =? 10 * time.Minute)%Z then "10m0s"
    else if (d =? time.Second)%Z then "1s"
    else "?";
  filepathJoin := fun dir name => dir ++ "/" ++ name
|}.

Definition exit (code : Z) (out err : string) (ns : Z) : Exit :=
  {| started := true; exitCode := code; Stdout := out; Stderr := err;
     Combined := out ++ err;
     errText := if (code =? 0)%Z then "" else "exit status 1";
     elapsed := ns; written := fun _ => out ++ err |}.

Definition ok : Exit := exit 0 "" "" 1000.

#[export] Instance os : OS (list Exit) := {|
  spawn := fun _ w => match w with
                      | x :: w' => (x, w')
                      | [] => (ok, [])
                      end;
  interrupt := fun _ _ w => tl w;
  notExist := fun _ _ => false;
  dialAndSend := fun _ w => (None, w);
  timerFirst := fun _ => true
|}.

Definition start (script : list Exit) : State (list Exit) :=
  {| world := script; trace := [] |}.

Definition smtp : config.SMTPConfig :=
  {| config.Host := "smtp.example.com"; config.Port := 587;
     config.Username := "deployer"; config.Password := "hunter2";
     config.From := "deployer@example.com";
     config.To := "ops@example.com" |}.

Definition app : config.WatchedFolder :=
  {| config.Path := "/srv/app"; config.Command := "make";
     config.Branch := "main";
     config.RepoURL := "git@github.com:Owner/Repo.git" |}.

Definition mirror : config.WatchedFolder :=
  {| config.Path := "/srv/mirror"; config.Command := "";
     config.Branch := "main";
     config.RepoURL := "https://github.com/owner/repo" |}.

Definition cfg : config.Config :=
  {| config.GitHub := {| config.AppID := 1;
                         config.PrivateKeyPath := "/etc/key.pem";
                         config.WebhookSecret := "It's a Secret to Everybody" |};
     config.SMTP := smtp;
     config.Server := {| config.ServerPort := 8080 |};
     config.Folders := [app; mirror] |}.

Definition handler : webhook.Handler := webhook.NewHandler cfg.

Definition push : webhook.PushEvent :=
  {| webhook.Ref := "refs/heads/main";
     webhook.FullName := "owner/repo";
     webhook.CloneURL := "https://github.com/owner/repo.git" |}.

Definition payload : string := "Hello, World!".

Definition signature : string :=
  "sha256=757107ea0eb2509fc211221cce984b8a37570b6d7586c22c46f4379c8b043e17".

Definition header (sig event : string) (name : string) : string :=
  if String.eqb name "X-Hub-Signature-256" then sig
  else if String.eqb name "X-GitHub-Event" then event
  else "".


#[export] Instance decoder : Decoder webhook.PushEvent := {|
  Unmarshal := fun body =>
    if String.eqb body payload then Some push else None
|}.

Definition watcher : config2.WatcherConfig :=
  {| config2.Path := "/srv/app"; config2.Branch := "main";
     config2.Command := "make deploy";
     config2.RepoOwner := "owner"; config2.RepoName := "repo" |}.

Definition cfg2 : config2.Config :=
  {| config2.GitHub := {| config2.AppID := 1; config2.InstallationID := 2;
                          config2.PrivateKeyPath := "/etc/key.pem";
                          config2.WebhookSecret := "It's a Secret to Everybody" |};
     config2.SMTP := {| config2.Host := "smtp.example.com";
                        config2.Port := 587;
                        config2.Username := "deployer";
                        config2.Password := "hunter2";
                        config2.From := "deployer@example.com";
                        config2.To := "ops@example.com" |};
     config2.Server := {| config2.ServerPort := 8080;
                          config2.ServerHost := "0.0.0.0" |};
     config2.Watchers := [watcher] |}.

Definition srv : server.Server := server.NewServer cfg2.

Definition pushed : github.PushEvent :=
  {| github.GetRef := "refs/heads/main";
     github.GetRepoOwnerLogin := "owner";
     github.GetRepoName := "repo" |}.

#[export] Instance decoder2 : Decoder github.PushEvent := {|
  Unmarshal := fun body =>
    if String.eqb body payload then Some pushed else None
|}.

(** A validator that accepts the SHA-256 signature only. *)
#[export] Instance gogithub : GoGithub := {|
  ValidateSignature := fun sig body secret =>
    if String.eqb sig ("sha256=" ++ hex.EncodeToString (hmac.Sum secret body))
    then None
    else Some (errorString "payload signature check failed")
|}.

(** A pull that stops on a merge conflict, and a pull that prints the
    marker and still exits with code zero. *)
Definition conflict : Exit :=
  exit 1 "CONFLICT (content): Merge conflict in main.go"
    "Automatic merge failed; fix conflicts and then commit the result."
    2000.

Definition quietConflict : Exit :=
  exit 0 "CONFLICT (content): Merge conflict in main.go" "" 2000.

(** A build that has printed a line after one second and needs five. *)
Definition slow : Exit :=
  {| started := true; exitCode := 0; Stdout := "compiling"; Stderr := "";
     Combined := "compiling"; errText := "";
     elapsed := 5 * time.Second; written := fun _ => "compiling" |}.

Definition manager : git2.Manager := {| git2.repoPath := "/srv/app" |}.

(** A configuration file that is always written. *)
#[export] Instance store : config2.Store (list Exit) := {|
  config2.persist := fun _ w => (None, w)
|}.

Definition staging : config2.WatcherConfig :=
  {| config2.Path := "/srv/staging"; config2.Branch := "develop";
     config2.Command := ""; config2.RepoOwner := "owner";
     config2.RepoName := "repo" |}.

(** A fetch that cannot reach the remote. *)
Definition unreachable : Exit :=
  exit 1 "" "fatal: Could not read from remote repository." 500.

(** A push to a repository that is not watched. *)
Definition elsewhere : webhook.PushEvent :=
  {| webhook.Ref := "refs/heads/main";
     webhook.FullName := "else/where";
     webhook.CloneURL := "https://github.com/else/where.git" |}.

(** A folder whose command is two spaces. *)
Definition idle : config.WatchedFolder :=
  {| config.Path := "/srv/idle"; config.Command := "  ";
     config.Branch := "main";
     config.RepoURL := "https://github.com/owner/idle" |}.

(** A signed delivery of a push. *)
Definition delivery : http.Request :=
  {| http.Method := "POST";
     http.Header := header signature "push";
     http.Body := Some payload |}.

(** A push to a branch that the watcher of the repository does not
    follow. *)
Definition pushedDevelop : github.PushEvent :=
  {| github.GetRef := "refs/heads/develop";
     github.GetRepoOwnerLogin := "owner";
     github.GetRepoName := "repo" |}.

(** Two watchers of one repository, the second on the branch
    [develop]. *)
Definition cfg3 : config2.Config :=
  config2.withWatchers cfg2 [watcher; staging].

Definition srv3 : server.Server := server.NewServer cfg3.

(** The same environment, with no directory anywhere. *)
Definition bare : OS (list Exit) := {|
  spawn := fun _ w => match w with
                      | x :: w' => (x, w')
                      | [] => (ok, [])
                      end;
  interrupt := fun _ _ w => tl w;
  notExist := fun _ _ => true;
  dialAndSend := fun _ w => (None, w);
  timerFirst := fun _ => true
|}.

(** A command that fails. *)
Definition failing : Exit := exit 2 "building" "make: *** [deploy] Error 2" 3000.



(** The digest of [signature], shouted. *)
Definition shouted : string :=
  "757107EA0EB2509FC211221CCE984B8A37570B6D7586C22C46F4379C8B043E17".

End sample.

(** * Properties of the code *)

(** ** The hash functions against published test vectors *)

Example sha256_abc :
  hex.EncodeToString (sha256.Sum256 "abc")
  = "ba7816bf8f01cfea414140de5dae2223b00361a396177a9cb410ff61f20015ad".
Proof. vm_compute. reflexivity. Qed.

Example sha256_empty :
  hex.EncodeToString (sha256.Sum256 "")
  = "e3b0c44298fc1c149afbf4c8996fb92427ae41e4649b934ca495991b7852b855".
Proof. vm_compute. reflexivity. Qed.

Example sha256_two_blocks :
  hex.EncodeToString
    (sha256.Sum256 "abcdbcdecdefdefgefghfghighijhijkijkljklmklmnlmnomnopnopq")
  = "248d6a61d20638b8e5c026930c3e6039a33ce45964ff2167f6ecedd419db06c1".
Proof. vm_compute. reflexivity. Qed.

Example hmac_quick_brown_fox :
  hex.EncodeToString
    (hmac.Sum "key" "The quick brown fox jumps over the lazy dog")
  = "f7bc83f430538424b13298e6aa6fb143ef4d59a14946175997479dbc2d1a3cd8".
Proof. vm_compute. reflexivity. Qed.

(** * Byte strings *)

Lemma length_append (s t : string) :
  String.length (s ++ t) = String.length s + String.length t.
Proof. induction s as [|c s IH]; simpl; [reflexivity | now rewrite IH]. Qed.

Lemma append_nil_r (s : string) : s ++ "" = s.
Proof. induction s as [|c s IH]; simpl; [reflexivity | now rewrite IH]. Qed.

Lemma append_assoc (s t u : string) : (s ++ t) ++ u = s ++ (t ++ u).
Proof. induction s as [|c s IH]; simpl; [reflexivity | now rewrite IH]. Qed.

Lemma drop_append (p s : string) : drop (String.length p) (p ++ s) = s.
Proof. induction p as [|c p IH]; simpl; auto. Qed.

Lemma take_append (p s : string) : take (String.length p) (p ++ s) = p.
Proof. induction p as [|c p IH]; simpl; [now destruct s | now rewrite IH]. Qed.

Lemma take_drop (n : nat) (s : string) : take n s ++ drop n s = s.
Proof.
  revert s; induction n as [|n IH]; intros [|c s]; simpl; auto.
  now rewrite IH.
Qed.

Lemma length_take (n : nat) (s : string) :
  n <= String.length s -> String.length (take n s) = n.
Proof.
  revert s; induction n as [|n IH]; intros [|c s]; simpl; auto; try lia.
  intros Hn. rewrite IH; lia.
Qed.

Lemma HasPrefix_append (p s : string) : strings.HasPrefix (p ++ s) p = true.
Proof.
  induction p as [|c p IH]; simpl; [reflexivity|].
  now rewrite Ascii.eqb_refl, IH.
Qed.

Lemma HasPrefix_split (s p : string) :
  strings.HasPrefix s p = true -> s = p ++ drop (String.length p) s.
Proof.
  revert s; induction p as [|c p IH]; intros s; simpl; [reflexivity|].
  destruct s as [|d s]; [discriminate|].
  intros H. apply andb_true_iff in H as [Hc Hp].
  apply Ascii.eqb_eq in Hc. subst d. f_equal. now apply IH.
Qed.

Lemma HasPrefix_iff (s p : string) :
  strings.HasPrefix s p = true <-> exists t, s = p ++ t.
Proof.
  split.
  - intros H. eexists. now apply HasPrefix_split.
  - intros [t ->]. apply HasPrefix_append.
Qed.

Lemma TrimPrefix_append (p s : string) : strings.TrimPrefix (p ++ s) p = s.
Proof.
  unfold strings.TrimPrefix. now rewrite HasPrefix_append, drop_append.
Qed.

Lemma TrimPrefix_cases (s p : string) :
  (exists t, s = p ++ t /\ strings.TrimPrefix s p = t)
  \/ (strings.HasPrefix s p = false /\ strings.TrimPrefix s p = s).
Proof.
  unfold strings.TrimPrefix.
  destruct (strings.HasPrefix s p) eqn:E; [left | right; auto].
  exists (drop (String.length p) s). split; [now apply HasPrefix_split | reflexivity].
Qed.

(** * Constant-time comparison *)

Lemma byte_of_inj (a b : ascii) : byte_of a = byte_of b -> a = b.
Proof.
  unfold byte_of. intros H. apply N2Z.inj in H.
  rewrite <- (ascii_N_embedding a), <- (ascii_N_embedding b). now rewrite H.
Qed.

Lemma xorFold_zero (x y : string) (v : Z) :
  String.length x = String.length y ->
  hmac.xorFold x y v = 0%Z <-> v = 0%Z /\ x = y.
Proof.
  revert y v; induction x as [|a x IH]; intros [|b y] v; simpl; try discriminate.
  - intros _. split; [auto | tauto].
  - intros Hlen. injection Hlen as Hlen. rewrite (IH y _ Hlen).
    rewrite Z.lor_eq_0_iff, Z.lxor_eq_0_iff. split.
    + intros [[Hv Hab] Hxy]. apply byte_of_inj in Hab. subst. auto.
    + intros [Hv Hxy]. injection Hxy as -> ->. auto.
Qed.

Lemma Equal_iff (x y : string) : hmac.Equal x y = true <-> x = y.
Proof.
  unfold hmac.Equal, hmac.ConstantTimeCompare.
  destruct (Nat.eqb_spec (String.length x) (String.length y)) as [Hlen|Hlen]; simpl.
  - destruct (Z.eqb_spec (hmac.xorFold x y 0) 0) as [H0|H0]; simpl.
    + apply (xorFold_zero _ _ _ Hlen) in H0. tauto.
    + split; [discriminate|]. intros ->. exfalso. apply H0.
      apply xorFold_zero; auto.
  - split; [discriminate|]. intros ->. now elim Hlen.
Qed.

Lemma Equal_refl (x : string) : hmac.Equal x x = true.
Proof. now apply Equal_iff. Qed.

Lemma Equal_neq (x y : string) : x <> y -> hmac.Equal x y = false.
Proof.
  intros H. destruct (hmac.Equal x y) eqn:E; [|reflexivity].
  apply Equal_iff in E. contradiction.
Qed.

(** * Signature verification *)

Lemma length_setByte (i : nat) (c : ascii) (s : string) :
  String.length (setByte i c s) = String.length s.
Proof.
  revert i; induction s as [|a s IH]; intros [|i]; simpl; auto.
Qed.

Lemma setByte_changes (i : nat) (c : ascii) (s : string) :
  i < String.length s -> String.get i s <> Some c -> setByte i c s <> s.
Proof.
  revert i; induction s as [|a s IH]; intros [|i]; simpl; try lia.
  - intros _ Hc E. injection E as ->. now apply Hc.
  - intros Hi Hc E. injection E as E. revert E. apply IH; [lia | assumption].
Qed.

Lemma verifySignature_unfold (h : webhook.Handler) (payload sig : string) :
  sig <> "" ->
  webhook.verifySignature h payload sig
  = hmac.Equal (strings.TrimPrefix sig "sha256=") (signatureHex h payload).
Proof.
  intros Hne. unfold webhook.verifySignature.
  destruct (String.eqb_spec sig ""); [contradiction | reflexivity].
Qed.

Lemma verifySignature_true_iff (h : webhook.Handler) (payload sig : string) :
  webhook.verifySignature h payload sig = true
  <-> sig <> "" /\ strings.TrimPrefix sig "sha256=" = signatureHex h payload.
Proof.
  destruct (String.eqb_spec sig "") as [->|Hne].
  - unfold webhook.verifySignature. simpl. split; [discriminate | tauto].
  - rewrite verifySignature_unfold by assumption. rewrite Equal_iff. tauto.
Qed.

Lemma verifySignature_same_length (h : webhook.Handler) (payload sig : string) :
  String.length sig = String.length ("sha256=" ++ signatureHex h payload) ->
  sig <> "sha256=" ++ signatureHex h payload ->
  webhook.verifySignature h payload sig = false.
Proof.
  intros Hlen Hneq.
  destruct (webhook.verifySignature h payload sig) eqn:E; [exfalso | reflexivity].
  apply verifySignature_true_iff in E as [_ E].
  destruct (TrimPrefix_cases sig "sha256=") as [(t & -> & Ht) | [_ Ht]];
    rewrite Ht in E.
  - now subst t.
  - subst sig. rewrite length_append in Hlen. simpl in Hlen. lia.
Qed.

Lemma digit_not_s (n : Z) : hex.digit n <> "s"%char.
Proof.
  unfold hex.digit. generalize (Z.to_nat n) as k. intros k.
  do 16 (destruct k as [|k]; [vm_compute; discriminate|]).
  vm_compute. discriminate.
Qed.

Lemma lower_of_mac_has_no_prefix (d src : string) :
  strings.lowerBytes d = hex.EncodeToString src ->
  strings.HasPrefix d "sha256=" = false.
Proof.
  intros E. destruct (strings.HasPrefix d "sha256=") eqn:P; [exfalso | reflexivity].
  apply HasPrefix_split in P. rewrite P in E. simpl in E.
  destruct src as [|c src]; simpl in E; [discriminate|].
  injection E as E _. symmetry in E. revert E. apply digit_not_s.
Qed.

(** C1: the header [sha256=] followed by the lower-case hexadecimal
    HMAC-SHA256 of the payload under the configured secret is accepted, the
    empty header is rejected, and so is that header with any one byte
    changed. *)
Theorem verifySignature_accepts_the_mac_only :
  forall (h : webhook.Handler) (payload : string),
    webhook.verifySignature h payload ("sha256=" ++ signatureHex h payload)
    = true
    /\ webhook.verifySignature h payload "" = false
    /\ (forall (i : nat) (c : ascii),
          i < String.length ("sha256=" ++ signatureHex h payload) ->
          String.get i ("sha256=" ++ signatureHex h payload) <> Some c ->
          webhook.verifySignature h payload
            (setByte i c ("sha256=" ++ signatureHex h payload)) = false).
Proof.
  intros h payload. split; [|split].
  - apply verifySignature_true_iff. split; [discriminate|].
    apply TrimPrefix_append.
  - reflexivity.
  - intros i c Hi Hc. apply verifySignature_same_length.
    + apply length_setByte.
    + now apply setByte_changes.
Qed.

Lemma verifySignature_accepts_the_mac_only_witness :
  70 < String.length ("sha256=" ++ signatureHex sample.handler sample.payload)
  /\ String.get 70 ("sha256=" ++ signatureHex sample.handler sample.payload)
     <> Some "8"%char
  /\ webhook.verifySignature sample.handler sample.payload
       (setByte 70 "8"%char ("sha256=" ++ signatureHex sample.handler sample.payload))
     = false.
Proof.
  assert (Hi : 70 < String.length
                      ("sha256=" ++ signatureHex sample.handler sample.payload))
    by (vm_compute; lia).
  assert (Hc : String.get 70 ("sha256=" ++ signatureHex sample.handler sample.payload)
               <> Some "8"%char)
    by (vm_compute; discriminate).
  split; [exact Hi | split; [exact Hc |]].
  exact (proj2 (proj2 (verifySignature_accepts_the_mac_only
                         sample.handler sample.payload)) 70 "8"%char Hi Hc).
Defined.

(** C10: the comparison is byte for byte, so the right digest written
    with an upper-case letter anywhere is rejected, with or without the
    [sha256=] prefix. *)
Theorem verifySignature_rejects_uppercase_hex :
  forall (h : webhook.Handler) (payload d : string),
    strings.lowerBytes d = signatureHex h payload ->
    d <> signatureHex h payload ->
    webhook.verifySignature h payload ("sha256=" ++ d) = false
    /\ webhook.verifySignature h payload d = false.
Proof.
  intros h payload d Hlow Hneq. split.
  - rewrite verifySignature_unfold by discriminate.
    rewrite TrimPrefix_append. now apply Equal_neq.
  - destruct (String.eqb_spec d "") as [->|Hne]; [reflexivity|].
    rewrite verifySignature_unfold by assumption.
    unfold strings.TrimPrefix.
    rewrite (lower_of_mac_has_no_prefix d _ Hlow). now apply Equal_neq.
Qed.

Lemma verifySignature_rejects_uppercase_hex_witness :
  strings.lowerBytes sample.shouted = signatureHex sample.handler sample.payload
  /\ sample.shouted <> signatureHex sample.handler sample.payload
  /\ webhook.verifySignature sample.handler sample.payload
       ("sha256=" ++ sample.shouted) = false
  /\ webhook.verifySignature sample.handler sample.payload sample.shouted
     = false.
Proof.
  assert (Hl : strings.lowerBytes sample.shouted
               = signatureHex sample.handler sample.payload)
    by (vm_compute; reflexivity).
  assert (Hn : sample.shouted <> signatureHex sample.handler sample.payload)
    by (vm_compute; discriminate).
  split; [exact Hl | split; [exact Hn |]].
  exact (verifySignature_rejects_uppercase_hex
           sample.handler sample.payload sample.shouted Hl Hn).
Defined.

Example github_documented_signature :
  webhook.verifySignature sample.handler sample.payload sample.signature = true.
Proof. vm_compute. reflexivity. Qed.

(** * URL normalisation *)

Lemma HasPrefix_colon (c : ascii) (s : string) :
  strings.HasPrefix (String c s) ":" = Ascii.eqb c ":"%char.
Proof. simpl. apply andb_true_r. Qed.

Lemma splitColon_Replace1 (r : string) :
  match spec.splitColon r with
  | Some (host, path) => strings.Replace1 r ":" "/" = host ++ "/" ++ path
  | None => strings.Contains r ":" = false
  end.
Proof.
  induction r as [|c r IH].
  - reflexivity.
  - cbn [spec.splitColon strings.Replace1 strings.Contains].
    rewrite HasPrefix_colon.
    destruct (Ascii.eqb c ":"%char) eqn:E.
    + reflexivity.
    + destruct (spec.splitColon r) as [[host path]|].
      * cbn. now rewrite IH.
      * exact IH.
Qed.

Lemma Contains_git_at (r : string) :
  strings.Contains ("git@" ++ r) ":" = strings.Contains r ":".
Proof. reflexivity. Qed.

Section Normalisation.

Context `{GoRuntime}.

Lemma normalize_refines (url : string) :
  (strings.HasPrefix (strings.TrimSuffix url ".git") "git@" = true ->
   strings.Contains (strings.TrimSuffix url ".git") ":" = true) ->
  git.normalizeGitURL url = spec.normalize url.
Proof.
  unfold git.normalizeGitURL, spec.normalize, spec.sshShorthand.
  generalize (strings.TrimSuffix url ".git") as u. intros u Hwf.
  destruct (strings.HasPrefix u "git@") eqn:P.
  2: { unfold spec.hasScheme.
       now destruct (strings.HasPrefix u "http://"),
             (strings.HasPrefix u "https://"). }
  specialize (Hwf eq_refl).
  apply HasPrefix_iff in P as [r ->].
  rewrite Contains_git_at in Hwf.
  change (drop 4 ("git@" ++ r)) with r.
  pose proof (splitColon_Replace1 r) as Hr.
  destruct (spec.splitColon r) as [[host path]|]; [|congruence].
  change (strings.Replace1 ("git@" ++ r) ":" "/")
    with ("git@" ++ strings.Replace1 r ":" "/").
  rewrite Hr. reflexivity.
Qed.

Lemma CompareURLs_iff (a b : string) :
  git.CompareURLs a b = true <-> git.normalizeGitURL a = git.normalizeGitURL b.
Proof. unfold git.CompareURLs. apply String.eqb_eq. Qed.

Lemma splitColon_None_Replace1 (r : string) :
  spec.splitColon r = None -> strings.Replace1 r ":" "/" = r.
Proof.
  induction r as [|c r IH]; [reflexivity|].
  cbn [spec.splitColon strings.Replace1]. rewrite HasPrefix_colon.
  destruct (Ascii.eqb c ":"%char); [discriminate|].
  destruct (spec.splitColon r) as [[host path]|]; [discriminate|].
  intros _. now rewrite IH.
Qed.

Lemma normalize_refines_gitAt (url : string) :
  git.normalizeGitURL url = spec.normalizeGitAt url.
Proof.
  unfold git.normalizeGitURL, spec.normalizeGitAt, spec.gitAtToHttps.
  generalize (strings.TrimSuffix url ".git") as u. intros u.
  destruct (strings.HasPrefix u "git@") eqn:P.
  2: { unfold spec.hasScheme.
       now destruct (strings.HasPrefix u "http://"),
             (strings.HasPrefix u "https://"). }
  apply HasPrefix_iff in P as [r ->].
  change (drop 4 ("git@" ++ r)) with r.
  change (strings.Replace1 ("git@" ++ r) ":" "/")
    with ("git@" ++ strings.Replace1 r ":" "/").
  pose proof (splitColon_Replace1 r) as Hr.
  pose proof (splitColon_None_Replace1 r) as Hn.
  destruct (spec.splitColon r) as [[host path]|].
  - rewrite Hr. reflexivity.
  - rewrite (Hn eq_refl). reflexivity.
Qed.

(** C4, as the code has it: normalisation is total and computes: strip a
    trailing [.git]; when the URL starts with [git@], replace that prefix by
    [https://] and the first colon after it, if any, by a slash; prepend
    [https://] when neither [http://] nor [https://] starts the result;
    lower-case.  On a URL that is not a [git@] string without a colon this
    is the normal form in the words of the specification.  Two URLs compare
    equal iff their normal forms are equal, and the two examples of the
    specification hold. *)
Theorem normalizeGitURL_computes_the_gitAt_normal_form :
  (forall url : string, git.normalizeGitURL url = spec.normalizeGitAt url)
  /\ (forall url : string,
         (strings.HasPrefix (strings.TrimSuffix url ".git") "git@" = true ->
          strings.Contains (strings.TrimSuffix url ".git") ":" = true) ->
         git.normalizeGitURL url = spec.normalize url)
  /\ (forall a b : string,
         git.CompareURLs a b = true
         <-> git.normalizeGitURL a = git.normalizeGitURL b)
  /\ git.CompareURLs "git@github.com:Owner/Repo.git"
                     "https://github.com/owner/repo" = true
  /\ git.CompareURLs "https://github.com/a/b" "https://github.com/a/c" = false.
Proof.
  split; [exact normalize_refines_gitAt|].
  split; [exact normalize_refines|].
  split; [exact CompareURLs_iff|].
  split; reflexivity.
Qed.

End Normalisation.

Lemma normalizeGitURL_computes_the_gitAt_normal_form_witness :
  (strings.HasPrefix (strings.TrimSuffix "git@github.com:Owner/Repo.git" ".git")
     "git@" = true ->
   strings.Contains (strings.TrimSuffix "git@github.com:Owner/Repo.git" ".git")
     ":" = true)
  /\ git.normalizeGitURL (H := sample.runtime) "git@github.com:Owner/Repo.git"
     = spec.normalize (H := sample.runtime) "git@github.com:Owner/Repo.git".
Proof.
  assert (Hwf : strings.HasPrefix
                  (strings.TrimSuffix "git@github.com:Owner/Repo.git" ".git")
                  "git@" = true ->
                strings.Contains
                  (strings.TrimSuffix "git@github.com:Owner/Repo.git" ".git")
                  ":" = true)
    by (intros _; reflexivity).
  split; [exact Hwf|].
  exact (proj1 (proj2 (normalizeGitURL_computes_the_gitAt_normal_form
                         (H := sample.runtime)))
           "git@github.com:Owner/Repo.git" Hwf).
Defined.

(** C4 as stated fails: a URL that starts with [git@] and has no colon is
    not of the form [git@host:owner/repo], so the steps of the specification
    leave it alone and prepend the scheme; the code drops the [git@].  Such
    a URL then compares equal to an HTTPS URL whose normal form, by those
    steps, is another one. *)
Lemma git_at_without_colon_is_rewritten :
  git.normalizeGitURL (H := sample.runtime) "git@host" = "https://host"
  /\ spec.normalize (H := sample.runtime) "git@host" = "https://git@host"
  /\ git.CompareURLs (H := sample.runtime) "git@github.com/owner/repo"
       "https://github.com/owner/repo" = true
  /\ spec.normalize (H := sample.runtime) "git@github.com/owner/repo"
     <> spec.normalize (H := sample.runtime) "https://github.com/owner/repo".
Proof. repeat split. discriminate. Qed.

Example normalize_ssh :
  git.normalizeGitURL (H := sample.runtime) "git@github.com:Owner/Repo.git"
  = "https://github.com/owner/repo".
Proof. reflexivity. Qed.

Example normalize_bare_host :
  git.normalizeGitURL (H := sample.runtime) "GitHub.com/Owner/Repo"
  = "https://github.com/owner/repo".
Proof. reflexivity. Qed.

(** * The branch of a ref *)

(** C9: the server's helper strips the prefix only from a ref that is
    longer than the prefix.  On the ref [refs/heads/] itself, where the
    prefix is present, it returns the ref and not the empty branch that
    stripping gives (and that the webhook handler's [TrimPrefix] gives). *)
Theorem extractBranchFromRef_keeps_the_bare_prefix :
  server.extractBranchFromRef "refs/heads/" = "refs/heads/"
  /\ strings.TrimPrefix "refs/heads/" "refs/heads/" = "".
Proof. split; reflexivity. Qed.

(** * Git synchronisation *)

Section Synchronisation.

Context {World : Type} `{OS World}.

Lemma bind_run {A : Type} (c : Cmd) (k : Exit -> M World A) (s : State World) :
  bind (run c) k s
  = k (fst (spawn c (world s)))
      {| world := snd (spawn c (world s));
         trace := (trace s ++ [Exec c])%list |}.
Proof. unfold bind, run. now destruct (spawn c (world s)). Qed.

(** C2, as the code has it: the marker is looked for only once the pull has
    failed, in each stream on its own; a pull that exits with code zero is a
    success whatever it printed. *)
Theorem FetchAndPull_conflict_needs_a_failed_pull :
  forall (m : git2.Manager) (branch : string) (s : State World)
         (fetch pull : Exit) (w1 w2 : World),
    spawn {| Name := "git"; Args := ["fetch"; "origin"; branch];
             Dir := git2.repoPath m |} (world s) = (fetch, w1) ->
    failed fetch = false ->
    spawn {| Name := "git"; Args := ["pull"; "origin"; branch];
             Dir := git2.repoPath m |} w1 = (pull, w2) ->
    (failed pull = true ->
     strings.Contains (Stderr pull) "CONFLICT"
     || strings.Contains (Stdout pull) "CONFLICT" = true ->
     fst (git2.FetchAndPull m branch s)
     = Some (ConflictError (Stderr pull ++ Stdout pull)))
    /\ (failed pull = true ->
        strings.Contains (Stderr pull) "CONFLICT"
        || strings.Contains (Stdout pull) "CONFLICT" = false ->
        fst (git2.FetchAndPull m branch s)
        = Some (errorString ("git pull failed: " ++ Stderr pull)))
    /\ (failed pull = false -> fst (git2.FetchAndPull m branch s) = None).
Proof.
  intros m branch s fetch pull w1 w2 Hfetch Hok Hpull.
  unfold git2.FetchAndPull.
  rewrite bind_run, Hfetch. cbn [fst snd]. rewrite Hok.
  rewrite bind_run. cbn [world]. rewrite Hpull. cbn [fst snd].
  repeat split; intros Hf; rewrite Hf; try reflexivity;
    intros Hc; rewrite Hc; reflexivity.
Qed.

End Synchronisation.

Lemma FetchAndPull_conflict_needs_a_failed_pull_witness :
  failed sample.conflict = true
  /\ strings.Contains (Stderr sample.conflict) "CONFLICT"
     || strings.Contains (Stdout sample.conflict) "CONFLICT" = true
  /\ fst (git2.FetchAndPull (H := sample.os) sample.manager "main"
            (sample.start [sample.ok; sample.conflict]))
     = Some (ConflictError (Stderr sample.conflict ++ Stdout sample.conflict)).
Proof.
  split; [reflexivity | split; [reflexivity |]].
  exact (proj1 (FetchAndPull_conflict_needs_a_failed_pull (H := sample.os)
                  sample.manager "main"
                  (sample.start [sample.ok; sample.conflict])
                  sample.ok sample.conflict [sample.conflict] []
                  eq_refl eq_refl eq_refl)
           eq_refl eq_refl).
Defined.

(** C2 as stated fails: this pull prints the marker and exits with code
    zero, and the synchronisation reports success. *)
Lemma pull_with_marker_and_exit_zero_succeeds :
  strings.Contains (Stdout sample.quietConflict ++ Stderr sample.quietConflict)
    "CONFLICT" = true
  /\ exitCode sample.quietConflict = 0%Z
  /\ fst (git2.FetchAndPull (H := sample.os) sample.manager "main"
            (sample.start [sample.ok; sample.quietConflict])) = None.
Proof. repeat split. Qed.

(** * Matching a push against the watched folders *)

Section Matching.

Context {World : Type} `{GoRuntime} `{OS World}.

Lemma forEach_filter {A : Type} (skip : A -> bool) (body : A -> M World unit)
  (l : list A) (s : State World) :
  forEach l (fun a => if skip a then ret tt else body a) s
  = forEach (filter (fun a => negb (skip a)) l) body s.
Proof.
  revert s; induction l as [|a l IH]; intros s; [reflexivity|].
  cbn [forEach filter]. destruct (skip a); cbn [negb forEach].
  - unfold bind, ret. apply IH.
  - unfold bind. destruct (body a s) as [[] s']. apply IH.
Qed.

Lemma forEach_ext {A : Type} (f g : A -> M World unit) (l : list A)
  (s : State World) :
  (forall a s', f a s' = g a s') -> forEach l f s = forEach l g s.
Proof.
  intros Hfg. revert s; induction l as [|a l IH]; intros s; [reflexivity|].
  cbn [forEach]. unfold bind. rewrite Hfg.
  destruct (g a s) as [[] s']. apply IH.
Qed.

Lemma matches_iff (event : webhook.PushEvent) (folder : config.WatchedFolder) :
  matches event folder = true
  <-> git.normalizeGitURL (config.RepoURL folder)
      = git.normalizeGitURL (webhook.CloneURL event)
      /\ config.Branch folder
         = strings.TrimPrefix (webhook.Ref event) "refs/heads/".
Proof.
  unfold matches, git.CompareURLs.
  now rewrite andb_true_iff, !String.eqb_eq.
Qed.

(** C3, as the code has it: the folders are visited in registration order,
    a folder matches iff its remote and the clone URL have the same normal
    form and its branch is exactly the pushed branch, and every matching
    folder is deployed, in that order. *)
Theorem processPushEvent_deploys_every_match :
  forall (h : webhook.Handler) (event : webhook.PushEvent) (s : State World),
    (forall folder : config.WatchedFolder,
        matches event folder = true
        <-> git.normalizeGitURL (config.RepoURL folder)
            = git.normalizeGitURL (webhook.CloneURL event)
            /\ config.Branch folder
               = strings.TrimPrefix (webhook.Ref event) "refs/heads/")
    /\ webhook.processPushEvent h event s
       = forEach (filter (matches event) (config.Folders (webhook.config h)))
           (webhook.deploy h
              (strings.TrimPrefix (webhook.Ref event) "refs/heads/"))
           s.
Proof.
  intros h event s. split; [intros folder; apply matches_iff|].
  unfold webhook.processPushEvent.
  set (branch := strings.TrimPrefix (webhook.Ref event) "refs/heads/").
  rewrite (forEach_ext _
             (fun folder =>
                if negb (matches event folder) then ret tt
                else webhook.deploy h branch folder)).
  - rewrite forEach_filter. f_equal. apply filter_ext.
    intros folder. apply negb_involutive.
  - intros folder s'. unfold matches. fold branch.
    now destruct (git.CompareURLs _ _), (String.eqb _ branch).
Qed.

End Matching.

(** C3 as stated fails: both sample folders match the push, and the second
    one is fetched and pulled after the first has been deployed. *)
Lemma second_match_is_deployed_too :
  matches (H := sample.runtime) sample.push sample.app = true
  /\ matches (H := sample.runtime) sample.push sample.mirror = true
  /\ trace (snd (webhook.processPushEvent (H := sample.runtime)
                   (H0 := sample.os) sample.handler sample.push
                   (sample.start [])))
     = [ Exec {| Name := "git"; Args := ["fetch"; "origin"];
                 Dir := "/srv/app" |};
         Exec {| Name := "git"; Args := ["pull"; "origin"];
                 Dir := "/srv/app" |};
         Exec {| Name := "make"; Args := []; Dir := "/srv/app" |};
         Exec {| Name := "git"; Args := ["fetch"; "origin"];
                 Dir := "/srv/mirror" |};
         Exec {| Name := "git"; Args := ["pull"; "origin"];
                 Dir := "/srv/mirror" |} ].
Proof. repeat split. Qed.

(** * The pipeline of the server *)

Section ServerPipeline.

Context {World : Type} `{GoRuntime} `{OS World}.



End ServerPipeline.


(** * Command execution *)

Section Execution.

Context {World : Type} `{GoRuntime} `{OS World}.

(** C6, as the code has it: a new executor waits ten minutes; when the
    timer fires first a started process is killed and the result is the
    time-out error with an empty output, what the process had written being
    dropped; otherwise the captured output is returned, alone on exit code
    zero and together with the failure otherwise. *)
Theorem Execute_outcomes :
  forall (e : executor.Executor) (command name : string) (args : list string)
         (s : State World) (x : Exit) (w' : World),
    strings.Fields command = name :: args ->
    spawn {| Name := name; Args := args; Dir := executor.workDir e |} (world s)
    = (x, w') ->
    (forall dir : string,
        executor.timeout (executor.NewExecutor dir) = (10 * time.Minute)%Z)
    /\ (executor.timerFires (executor.timeout e) x (world s) = true ->
        fst (executor.Execute e command s)
        = ("", Some (errorString
                       ("command timed out after "
                        ++ durationString (executor.timeout e))))
        /\ (started x = true ->
            trace (snd (executor.Execute e command s))
            = (trace s
               ++ [ Exec {| Name := name; Args := args;
                            Dir := executor.workDir e |};
                    Killed {| Name := name; Args := args;
                              Dir := executor.workDir e |} ])%list))
    /\ (executor.timerFires (executor.timeout e) x (world s) = false ->
        failed x = false ->
        fst (executor.Execute e command s) = (Combined x, None))
    /\ (executor.timerFires (executor.timeout e) x (world s) = false ->
        failed x = true ->
        fst (executor.Execute e command s)
        = (Combined x,
           Some (errorString ("command failed: " ++ errText x ++ nl
                              ++ "Output: " ++ Combined x)))).
Proof.
  intros e command name args s x w' Hfields Hspawn.
  unfold executor.Execute. rewrite Hfields, Hspawn.
  split; [reflexivity|].
  split; [|split].
  - intros Ht. rewrite Ht. split; [reflexivity|].
    intros Hs. rewrite Hs. cbn [snd trace]. now rewrite <- app_assoc.
  - intros Ht Hf. now rewrite Ht, Hf.
  - intros Ht Hf. now rewrite Ht, Hf.
Qed.

End Execution.

Lemma Execute_outcomes_witness :
  fst (executor.Execute (H := sample.runtime) (H0 := sample.os)
         (executor.SetTimeout (executor.NewExecutor "/srv/app") time.Second)
         "make all" (sample.start [sample.slow]))
  = ("", Some (errorString "command timed out after 1s")).
Proof.
  exact (proj1 (proj1 (proj2 (Execute_outcomes
                                (H := sample.runtime) (H0 := sample.os)
                                (executor.SetTimeout
                                   (executor.NewExecutor "/srv/app")
                                   time.Second)
                                "make all" "make" ["all"]
                                (sample.start [sample.slow]) sample.slow []
                                eq_refl eq_refl))
                 eq_refl)).
Defined.

(** C6 as stated fails: the build had written a line when the timer fired,
    and neither the returned output nor the error carries it. *)
Lemma timeout_drops_the_partial_output :
  written sample.slow time.Second = "compiling"
  /\ executor.Execute (H := sample.runtime) (H0 := sample.os)
       (executor.SetTimeout (executor.NewExecutor "/srv/app") time.Second)
       "make all" (sample.start [sample.slow])
     = (("", Some (errorString "command timed out after 1s")),
        {| world := [];
           trace := [ Exec {| Name := "make"; Args := ["all"];
                              Dir := "/srv/app" |};
                      Killed {| Name := "make"; Args := ["all"];
                                Dir := "/srv/app" |} ] |}).
Proof. split; reflexivity. Qed.

(** C7: the executor of the webhook handler does not hand the command to a
    shell.  It splits the string at white space and starts the first field
    with the others as its arguments, [&&] among them. *)
Theorem Execute_starts_the_first_field :
  trace (snd (executor.Execute (H := sample.runtime) (H0 := sample.os)
                (executor.NewExecutor "/srv/app")
                "npm install && npm run build" (sample.start [])))
  = [ Exec {| Name := "npm";
              Args := ["install"; "&&"; "npm"; "run"; "build"];
              Dir := "/srv/app" |} ].
Proof. reflexivity. Qed.

(** * The HTTP surface *)

Section Surface.

Context `{Decoder webhook.PushEvent} `{GoGithub} `{Decoder github.PushEvent}.


End Surface.



(** * Further properties of the code *)

(** ** The headers the verifier accepts *)

Lemma length_string_of (bs : list Z) :
  String.length (string_of bs) = List.length bs.
Proof. induction bs as [|b bs IH]; simpl; [reflexivity | now rewrite IH]. Qed.

Lemma length_rounds (ks ws v : list Z) :
  List.length v = 8 -> List.length (sha256.rounds ks ws v) = 8.
Proof.
  revert ws v; induction ks as [|k ks IH]; intros ws v Hv; simpl; [exact Hv|].
  apply IH. reflexivity.
Qed.

Lemma length_block (h bs : list Z) :
  List.length h = 8 -> List.length (sha256.block h bs) = 8.
Proof.
  intros Hh. unfold sha256.block.
  rewrite length_map, length_combine, length_rounds, Hh by exact Hh.
  reflexivity.
Qed.

Lemma length_blocks (n : nat) (h bs : list Z) :
  List.length h = 8 -> List.length (sha256.blocks n h bs) = 8.
Proof.
  revert h bs; induction n as [|n IH]; intros h bs Hh; simpl; [exact Hh|].
  apply IH. now apply length_block.
Qed.

Lemma length_flat_bigEndian (l : list Z) :
  List.length (flat_map (sha256.bigEndian 4) l) = 4 * List.length l.
Proof.
  induction l as [|x l IH]; [reflexivity|].
  cbn [flat_map]. rewrite length_app, IH. cbn [sha256.bigEndian List.length]. lia.
Qed.

Lemma length_Sum256 (data : string) :
  String.length (sha256.Sum256 data) = 32.
Proof.
  unfold sha256.Sum256.
  rewrite length_string_of, length_flat_bigEndian, length_blocks; reflexivity.
Qed.

Lemma length_EncodeToString (src : string) :
  String.length (hex.EncodeToString src) = 2 * String.length src.
Proof. induction src as [|c src IH]; simpl; [reflexivity | rewrite IH; lia]. Qed.

Lemma length_signatureHex (h : webhook.Handler) (payload : string) :
  String.length (signatureHex h payload) = 64.
Proof.
  unfold signatureHex, hmac.Sum.
  now rewrite length_EncodeToString, length_Sum256.
Qed.

Lemma EncodeToString_has_no_prefix (src : string) :
  strings.HasPrefix (hex.EncodeToString src) "sha256=" = false.
Proof.
  apply (lower_of_mac_has_no_prefix _ src).
  induction src as [|c src IH]; [reflexivity|].
  cbn [hex.EncodeToString strings.lowerBytes]. rewrite IH. f_equal; [|f_equal].
  - unfold hex.digit. generalize (Z.to_nat (Z.shiftr (byte_of c) 4)) as k.
    intros k. do 16 (destruct k as [|k]; [reflexivity|]). reflexivity.
  - unfold hex.digit. generalize (Z.to_nat (Z.land (byte_of c) 15)) as k.
    intros k. do 16 (destruct k as [|k]; [reflexivity|]). reflexivity.
Qed.

(** X1: the verifier accepts exactly two headers, the digest with the
    [sha256=] prefix and the bare digest: the prefix is optional. *)
Theorem verifySignature_accepts_exactly_two_headers :
  forall (h : webhook.Handler) (payload sig : string),
    webhook.verifySignature h payload sig = true
    <-> sig = "sha256=" ++ signatureHex h payload
        \/ sig = signatureHex h payload.
Proof.
  intros h payload sig. rewrite verifySignature_true_iff. split.
  - intros [_ Ht].
    destruct (TrimPrefix_cases sig "sha256=") as [(t & -> & Ht') | [_ Ht']];
      rewrite Ht' in Ht; subst; auto.
  - intros [-> | ->].
    + split; [discriminate | apply TrimPrefix_append].
    + split.
      * intros E. pose proof (length_signatureHex h payload) as L.
        rewrite E in L. discriminate.
      * unfold strings.TrimPrefix, signatureHex.
        now rewrite EncodeToString_has_no_prefix.
Qed.

(** ** The branch of a ref, again *)

Lemma HasPrefix_take (s p : string) :
  strings.HasPrefix s p = true <-> take (String.length p) s = p.
Proof.
  split.
  - intros Hp. apply HasPrefix_split in Hp. rewrite Hp at 1.
    apply take_append.
  - intros Ht. apply HasPrefix_iff. exists (drop (String.length p) s).
    rewrite <- Ht at 1. symmetry. apply take_drop.
Qed.

(** X2: on every ref but [refs/heads/] itself the helper of the server and
    the [TrimPrefix] of the webhook handler derive the same branch. *)
Theorem extractBranchFromRef_agrees_with_TrimPrefix :
  forall ref : string,
    ref <> "refs/heads/" ->
    server.extractBranchFromRef ref = strings.TrimPrefix ref "refs/heads/".
Proof.
  intros ref Hne. unfold server.extractBranchFromRef, strings.TrimPrefix.
  destruct (strings.HasPrefix ref "refs/heads/") eqn:Hp.
  - pose proof Hp as Ht. apply HasPrefix_take in Ht. rewrite Ht, String.eqb_refl.
    apply HasPrefix_split in Hp.
    destruct (drop (String.length "refs/heads/") ref) as [|c t] eqn:Hd.
    + exfalso. apply Hne. rewrite Hp. reflexivity.
    + replace (String.length "refs/heads/" <? String.length ref)%nat with true.
      * reflexivity.
      * symmetry. apply Nat.ltb_lt. rewrite Hp, length_append. simpl. lia.
  - destruct (String.eqb_spec (take (String.length "refs/heads/") ref)
                "refs/heads/") as [Ht|Ht].
    + apply HasPrefix_take in Ht. congruence.
    + now rewrite andb_false_r.
Qed.

Lemma extractBranchFromRef_agrees_with_TrimPrefix_witness :
  "refs/heads/main" <> "refs/heads/"
  /\ server.extractBranchFromRef "refs/heads/main"
     = strings.TrimPrefix "refs/heads/main" "refs/heads/".
Proof.
  assert (Hne : "refs/heads/main" <> "refs/heads/") by discriminate.
  split; [exact Hne|].
  exact (extractBranchFromRef_agrees_with_TrimPrefix "refs/heads/main" Hne).
Defined.

(** ** Normal forms of remote URLs *)

Lemma HasSuffix_append (s suffix : string) :
  strings.HasSuffix (s ++ suffix) suffix = true.
Proof.
  unfold strings.HasSuffix. rewrite length_append.
  replace (String.length s + String.length suffix - String.length suffix)
    with (String.length s) by lia.
  rewrite drop_append, String.eqb_refl, andb_true_r.
  apply Nat.leb_le. lia.
Qed.

Lemma TrimSuffix_append (s suffix : string) :
  strings.TrimSuffix (s ++ suffix) suffix = s.
Proof.
  unfold strings.TrimSuffix. rewrite HasSuffix_append, length_append.
  replace (String.length s + String.length suffix - String.length suffix)
    with (String.length s) by lia.
  apply take_append.
Qed.

Lemma TrimSuffix_absent (s suffix : string) :
  strings.HasSuffix s suffix = false -> strings.TrimSuffix s suffix = s.
Proof. unfold strings.TrimSuffix. now intros ->. Qed.

Lemma splitColon_append (host path : string) :
  strings.Contains host ":" = false ->
  spec.splitColon (host ++ ":" ++ path) = Some (host, path).
Proof.
  induction host as [|c host IH]; intros Hc; [reflexivity|].
  cbn [strings.Contains] in Hc. rewrite HasPrefix_colon in Hc.
  apply orb_false_iff in Hc as [Hc Hhost].
  cbn [append spec.splitColon]. rewrite Hc.
  change (host ++ String ":" path) with (host ++ ":" ++ path).
  now rewrite IH.
Qed.

Section NormalForms.

Context `{GoRuntime}.

(** X3: one trailing [.git] does not matter: a URL and the same URL with
    [.git] appended compare equal, unless the URL ends in [.git] already. *)
Theorem CompareURLs_ignores_one_git_suffix :
  forall url : string,
    strings.HasSuffix url ".git" = false ->
    git.normalizeGitURL (url ++ ".git") = git.normalizeGitURL url
    /\ git.CompareURLs (url ++ ".git") url = true.
Proof.
  intros url Hs.
  assert (E : git.normalizeGitURL (url ++ ".git") = git.normalizeGitURL url).
  { unfold git.normalizeGitURL.
    now rewrite TrimSuffix_append, (TrimSuffix_absent url) by assumption. }
  split; [exact E|]. apply CompareURLs_iff. exact E.
Qed.

(** X4: the SSH shorthand of a repository, with its [.git], compares equal
    to the HTTPS URL of the same host and path. *)
Theorem CompareURLs_ssh_and_https :
  forall host path : string,
    strings.Contains host ":" = false ->
    strings.HasSuffix ("https://" ++ host ++ "/" ++ path) ".git" = false ->
    git.CompareURLs ("git@" ++ host ++ ":" ++ path ++ ".git")
                    ("https://" ++ host ++ "/" ++ path) = true.
Proof.
  intros host path Hhost Hs. apply CompareURLs_iff.
  replace ("git@" ++ host ++ ":" ++ path ++ ".git")
    with (("git@" ++ host ++ ":" ++ path) ++ ".git")
    by (now rewrite !append_assoc).
  rewrite !normalize_refines.
  - unfold spec.normalize.
    rewrite TrimSuffix_append, (TrimSuffix_absent _ _ Hs).
    unfold spec.sshShorthand.
    change (strings.HasPrefix ("git@" ++ host ++ ":" ++ path) "git@") with true.
    change (drop 4 ("git@" ++ host ++ ":" ++ path)) with (host ++ ":" ++ path).
    rewrite (splitColon_append host path Hhost).
    reflexivity.
  - rewrite (TrimSuffix_absent _ _ Hs). discriminate.
  - rewrite TrimSuffix_append. intros _.
    rewrite Contains_git_at.
    pose proof (splitColon_Replace1 (host ++ ":" ++ path)) as Hr.
    rewrite (splitColon_append host path Hhost) in Hr.
    destruct (strings.Contains (host ++ ":" ++ path) ":") eqn:E; [reflexivity|].
    exfalso. clear Hr. revert E. clear. induction host as [|c host IH].
    + discriminate.
    + cbn [append strings.Contains]. rewrite HasPrefix_colon.
      intros E. apply orb_false_iff in E as [_ E]. now apply IH.
Qed.

End NormalForms.

Lemma CompareURLs_ignores_one_git_suffix_witness :
  strings.HasSuffix "https://github.com/owner/repo" ".git" = false
  /\ git.CompareURLs (H := sample.runtime)
       ("https://github.com/owner/repo" ++ ".git")
       "https://github.com/owner/repo" = true.
Proof.
  split; [reflexivity|].
  exact (proj2 (CompareURLs_ignores_one_git_suffix (H := sample.runtime)
                  "https://github.com/owner/repo" eq_refl)).
Defined.

Lemma CompareURLs_ssh_and_https_witness :
  strings.Contains "github.com" ":" = false
  /\ strings.HasSuffix ("https://" ++ "github.com" ++ "/" ++ "Owner/Repo")
       ".git" = false
  /\ git.CompareURLs (H := sample.runtime)
       ("git@" ++ "github.com" ++ ":" ++ "Owner/Repo" ++ ".git")
       ("https://" ++ "github.com" ++ "/" ++ "Owner/Repo") = true.
Proof.
  split; [reflexivity | split; [reflexivity |]].
  exact (CompareURLs_ssh_and_https (H := sample.runtime)
           "github.com" "Owner/Repo" eq_refl eq_refl).
Defined.

(** ** Normalising a normal form *)

Lemma isASCII_append (s t : string) :
  strings.isASCII (s ++ t) = strings.isASCII s && strings.isASCII t.
Proof.
  induction s as [|c s IH]; [reflexivity|].
  cbn [append strings.isASCII]. now rewrite IH, andb_assoc.
Qed.

Lemma isASCII_take (n : nat) (s : string) :
  strings.isASCII s = true -> strings.isASCII (take n s) = true.
Proof.
  revert s; induction n as [|n IH]; intros [|c s]; cbn; auto.
  intros Hs. apply andb_true_iff in Hs as [Hc Hs].
  now rewrite Hc, IH.
Qed.

Lemma isASCII_drop (n : nat) (s : string) :
  strings.isASCII s = true -> strings.isASCII (drop n s) = true.
Proof.
  revert s; induction n as [|n IH]; intros [|c s]; cbn; auto.
  intros Hs. apply andb_true_iff in Hs as [_ Hs]. now apply IH.
Qed.

Lemma isASCII_TrimSuffix (s suffix : string) :
  strings.isASCII s = true -> strings.isASCII (strings.TrimSuffix s suffix) = true.
Proof.
  intros Hs. unfold strings.TrimSuffix.
  destruct (strings.HasSuffix s suffix); [now apply isASCII_take | exact Hs].
Qed.

Lemma isASCII_Replace1 (s old new : string) :
  strings.isASCII s = true -> strings.isASCII new = true ->
  strings.isASCII (strings.Replace1 s old new) = true.
Proof.
  intros Hs Hn. induction s as [|c s IH].
  - cbn. destruct (strings.HasPrefix "" old); [|reflexivity].
    rewrite isASCII_append, Hn. now destruct (String.length old).
  - cbn [strings.Replace1]. destruct (strings.HasPrefix (String c s) old).
    + rewrite isASCII_append, Hn. now apply isASCII_drop.
    + cbn [strings.isASCII] in *. apply andb_true_iff in Hs as [Hc Hs].
      now rewrite Hc, IH.
Qed.

Lemma lowerByte_idempotent (c : ascii) :
  strings.lowerByte (strings.lowerByte c) = strings.lowerByte c.
Proof. destruct c as [[] [] [] [] [] [] [] []]; reflexivity. Qed.

Lemma lowerByte_isASCII (c : ascii) :
  strings.isASCIIchar (strings.lowerByte c) = strings.isASCIIchar c.
Proof. destruct c as [[] [] [] [] [] [] [] []]; reflexivity. Qed.

Lemma lowerBytes_idempotent (s : string) :
  strings.lowerBytes (strings.lowerBytes s) = strings.lowerBytes s.
Proof.
  induction s as [|c s IH]; [reflexivity|].
  cbn [strings.lowerBytes]. now rewrite lowerByte_idempotent, IH.
Qed.

Lemma lowerBytes_isASCII (s : string) :
  strings.isASCII (strings.lowerBytes s) = strings.isASCII s.
Proof.
  induction s as [|c s IH]; [reflexivity|].
  cbn [strings.lowerBytes strings.isASCII]. now rewrite lowerByte_isASCII, IH.
Qed.

Lemma lowerBytes_append (s t : string) :
  strings.lowerBytes (s ++ t) = strings.lowerBytes s ++ strings.lowerBytes t.
Proof.
  induction s as [|c s IH]; [reflexivity|].
  cbn [append strings.lowerBytes]. now rewrite IH.
Qed.

Lemma hasScheme_lowerBytes (s : string) :
  spec.hasScheme s = true -> spec.hasScheme (strings.lowerBytes s) = true.
Proof.
  unfold spec.hasScheme. intros Hs. apply orb_true_iff in Hs as [Hs | Hs];
    apply HasPrefix_iff in Hs as [t ->]; rewrite lowerBytes_append;
    apply orb_true_iff; [left | right]; apply HasPrefix_append.
Qed.

Lemma hasScheme_not_ssh (s : string) :
  spec.hasScheme s = true -> strings.HasPrefix s "git@" = false.
Proof.
  unfold spec.hasScheme. intros Hs. apply orb_true_iff in Hs as [Hs | Hs];
    apply HasPrefix_iff in Hs as [t ->]; reflexivity.
Qed.

Section Idempotence.

Context `{GoRuntime}.

Lemma normalizeGitURL_ascii (url : string) :
  strings.isASCII url = true ->
  exists schemed : string,
    git.normalizeGitURL url = strings.lowerBytes schemed
    /\ strings.isASCII schemed = true
    /\ spec.hasScheme schemed = true.
Proof.
  intros Ha. unfold git.normalizeGitURL.
  pose proof (isASCII_TrimSuffix url ".git" Ha) as Hu.
  set (u := strings.TrimSuffix url ".git") in *.
  set (r := if strings.HasPrefix u "git@"
            then strings.Replace1 (strings.Replace1 u ":" "/") "git@" "https://"
            else u).
  assert (Hr : strings.isASCII r = true).
  { unfold r. destruct (strings.HasPrefix u "git@"); [|exact Hu].
    repeat apply isASCII_Replace1; auto. }
  set (v := if negb (strings.HasPrefix r "http://")
               && negb (strings.HasPrefix r "https://")
            then "https://" ++ r else r).
  exists v. split; [|split].
  - unfold strings.ToLower.
    replace (strings.isASCII v) with true; [reflexivity|].
    unfold v. destruct (negb _ && negb _); [|now rewrite Hr].
    now rewrite isASCII_append, Hr.
  - unfold v. destruct (negb _ && negb _); [|exact Hr].
    now rewrite isASCII_append, Hr.
  - unfold v, spec.hasScheme.
    destruct (strings.HasPrefix r "http://") eqn:E1;
      destruct (strings.HasPrefix r "https://") eqn:E2; cbn [negb andb];
      rewrite ?E1, ?E2; reflexivity.
Qed.

Lemma lowerBytes_take (n : nat) (s : string) :
  strings.lowerBytes (take n s) = take n (strings.lowerBytes s).
Proof.
  revert s; induction n as [|n IH]; intros [|c s]; cbn; auto.
  now rewrite IH.
Qed.

Lemma hasScheme_TrimSuffix (v : string) :
  spec.hasScheme v = true ->
  spec.hasScheme (strings.TrimSuffix v ".git") = true.
Proof.
  intros Hs. unfold strings.TrimSuffix.
  destruct (strings.HasSuffix v ".git") eqn:E; [|exact Hs].
  unfold spec.hasScheme in *. apply orb_true_iff in Hs as [Hs | Hs];
    apply HasPrefix_iff in Hs as [t ->];
    destruct t as [|a [|b [|c [|d t]]]]; try discriminate E;
    cbn [append String.length Nat.sub take];
    apply orb_true_iff; [left | right]; reflexivity.
Qed.

Lemma normalizeGitURL_again (v : string) :
  strings.isASCII v = true ->
  strings.lowerBytes v = v ->
  spec.hasScheme v = true ->
  git.normalizeGitURL v = strings.TrimSuffix v ".git".
Proof.
  intros Ha Hl Hs. unfold git.normalizeGitURL.
  pose proof (hasScheme_TrimSuffix v Hs) as Hu.
  pose proof (isASCII_TrimSuffix v ".git" Ha) as Hau.
  assert (Hlu : strings.lowerBytes (strings.TrimSuffix v ".git")
                = strings.TrimSuffix v ".git").
  { unfold strings.TrimSuffix.
    destruct (strings.HasSuffix v ".git"); [|exact Hl].
    now rewrite lowerBytes_take, Hl. }
  set (u := strings.TrimSuffix v ".git") in *.
  rewrite (hasScheme_not_ssh _ Hu).
  unfold spec.hasScheme in Hu.
  replace (negb (strings.HasPrefix u "http://")
           && negb (strings.HasPrefix u "https://"))
    with false by (symmetry; rewrite <- negb_orb, Hu; reflexivity).
  unfold strings.ToLower. now rewrite Hau.
Qed.

(** X5: the normal form of an ASCII URL starts with [http://] or
    [https://]; normalising it again changes nothing unless it ends in
    [.git] (as the normal form of [repo.git.git] or [Repo.GIT] does), and
    then gives it without those four bytes. *)
Theorem normalizeGitURL_of_a_normal_form :
  forall url : string,
    strings.isASCII url = true ->
    spec.hasScheme (git.normalizeGitURL url) = true
    /\ (strings.HasSuffix (git.normalizeGitURL url) ".git" = false ->
        git.normalizeGitURL (git.normalizeGitURL url) = git.normalizeGitURL url)
    /\ (strings.HasSuffix (git.normalizeGitURL url) ".git" = true ->
        git.normalizeGitURL (git.normalizeGitURL url)
        = take (String.length (git.normalizeGitURL url) - 4)
            (git.normalizeGitURL url)).
Proof.
  intros url Ha.
  destruct (normalizeGitURL_ascii url Ha) as (v & Hn & Hv & Hs).
  rewrite Hn.
  assert (Hagain : git.normalizeGitURL (strings.lowerBytes v)
                   = strings.TrimSuffix (strings.lowerBytes v) ".git").
  { apply normalizeGitURL_again.
    - now rewrite lowerBytes_isASCII.
    - apply lowerBytes_idempotent.
    - now apply hasScheme_lowerBytes. }
  split; [now apply hasScheme_lowerBytes | split].
  - intros Hg. rewrite Hagain. now apply TrimSuffix_absent.
  - intros Hg. rewrite Hagain. unfold strings.TrimSuffix. now rewrite Hg.
Qed.

End Idempotence.

Lemma normalizeGitURL_of_a_normal_form_witness :
  (strings.isASCII "git@github.com:Owner/Repo.git" = true
   /\ strings.HasSuffix
        (git.normalizeGitURL (H := sample.runtime)
           "git@github.com:Owner/Repo.git")
        ".git" = false
   /\ git.normalizeGitURL (H := sample.runtime)
        (git.normalizeGitURL (H := sample.runtime)
           "git@github.com:Owner/Repo.git")
      = git.normalizeGitURL (H := sample.runtime)
          "git@github.com:Owner/Repo.git")
  /\ (strings.isASCII "github.com/owner/Repo.GIT" = true
      /\ strings.HasSuffix
           (git.normalizeGitURL (H := sample.runtime)
              "github.com/owner/Repo.GIT")
           ".git" = true
      /\ git.normalizeGitURL (H := sample.runtime)
           (git.normalizeGitURL (H := sample.runtime)
              "github.com/owner/Repo.GIT")
         = take (String.length
                   (git.normalizeGitURL (H := sample.runtime)
                      "github.com/owner/Repo.GIT") - 4)
             (git.normalizeGitURL (H := sample.runtime)
                "github.com/owner/Repo.GIT")).
Proof.
  split.
  - split; [reflexivity | split; [reflexivity |]].
    exact (proj1 (proj2 (normalizeGitURL_of_a_normal_form (H := sample.runtime)
                           "git@github.com:Owner/Repo.git" eq_refl)) eq_refl).
  - split; [reflexivity | split; [reflexivity |]].
    exact (proj2 (proj2 (normalizeGitURL_of_a_normal_form (H := sample.runtime)
                           "github.com/owner/Repo.GIT" eq_refl)) eq_refl).
Defined.

(** The normal form of [Repo.GIT] ends in [.git], and normalising it again
    strips that. *)
Example normalizeGitURL_twice :
  git.normalizeGitURL (H := sample.runtime) "github.com/owner/Repo.GIT"
  = "https://github.com/owner/repo.git"
  /\ git.normalizeGitURL (H := sample.runtime)
       "https://github.com/owner/repo.git"
     = "https://github.com/owner/repo".
Proof. split; reflexivity. Qed.

(** ** The registry of the server *)

Lemma findByRepo_first (ws : list config2.WatcherConfig) (owner name : string) :
  match config2.findByRepo ws owner name with
  | Some w =>
      exists before after : list config2.WatcherConfig,
        ws = (before ++ w :: after)%list
        /\ config2.RepoOwner w = owner /\ config2.RepoName w = name
        /\ forall w' : config2.WatcherConfig,
             In w' before ->
             config2.RepoOwner w' <> owner \/ config2.RepoName w' <> name
  | None =>
      forall w' : config2.WatcherConfig,
        In w' ws ->
        config2.RepoOwner w' <> owner \/ config2.RepoName w' <> name
  end.
Proof.
  induction ws as [|w ws IH]; cbn [config2.findByRepo].
  - intros w' [].
  - destruct (String.eqb_spec (config2.RepoOwner w) owner) as [Ho|Ho];
      [destruct (String.eqb_spec (config2.RepoName w) name) as [Hn|Hn]|];
      cbn [andb].
    + exists [], ws. repeat split; auto; intros w' [].
    + destruct (config2.findByRepo ws owner name) as [v|].
      * destruct IH as (before & after & -> & Hvo & Hvn & Hb).
        exists (w :: before), after. repeat split; auto.
        intros w' [<- | Hin]; auto.
      * intros w' [<- | Hin]; auto.
    + destruct (config2.findByRepo ws owner name) as [v|].
      * destruct IH as (before & after & -> & Hvo & Hvn & Hb).
        exists (w :: before), after. repeat split; auto.
        intros w' [<- | Hin]; auto.
      * intros w' [<- | Hin]; auto.
Qed.

(** X6: the lookup by repository returns the first watcher, in registration
    order, whose owner and name are exactly the ones asked for, and fails
    with the message naming them when there is none. *)
Theorem GetWatcherByRepo_returns_the_first_match :
  forall (c : config2.Config) (owner name : string),
    match config2.GetWatcherByRepo c owner name with
    | inl w =>
        exists before after : list config2.WatcherConfig,
          config2.Watchers c = (before ++ w :: after)%list
          /\ config2.RepoOwner w = owner /\ config2.RepoName w = name
          /\ forall w' : config2.WatcherConfig,
               In w' before ->
               config2.RepoOwner w' <> owner \/ config2.RepoName w' <> name
    | inr err =>
        Error err
        = "watcher for repository " ++ owner ++ "/" ++ name ++ " not found"
        /\ forall w' : config2.WatcherConfig,
             In w' (config2.Watchers c) ->
             config2.RepoOwner w' <> owner \/ config2.RepoName w' <> name
    end.
Proof.
  intros c owner name. unfold config2.GetWatcherByRepo.
  pose proof (findByRepo_first (config2.Watchers c) owner name) as Hf.
  destruct (config2.findByRepo (config2.Watchers c) owner name).
  - exact Hf.
  - split; [reflexivity | exact Hf].
Qed.

Lemma findByPath_None (ws : list config2.WatcherConfig) (path : string) :
  config2.findByPath ws path = None
  <-> ~ In path (map config2.Path ws).
Proof.
  induction ws as [|w ws IH]; cbn [config2.findByPath map In].
  - tauto.
  - destruct (String.eqb_spec (config2.Path w) path) as [E|E].
    + split; [discriminate | intros Hn; exfalso; auto].
    + rewrite IH. tauto.
Qed.

Lemma findByPath_Some (ws : list config2.WatcherConfig) (path : string)
  (w : config2.WatcherConfig) :
  config2.findByPath ws path = Some w -> In w ws /\ config2.Path w = path.
Proof.
  induction ws as [|v ws IH]; cbn [config2.findByPath]; [discriminate|].
  destruct (String.eqb_spec (config2.Path v) path) as [E|E].
  - intros [= <-]. split; [now left | exact E].
  - intros Hf. destruct (IH Hf). split; [now right | assumption].
Qed.

Lemma findByPath_append_fresh (ws : list config2.WatcherConfig)
  (w : config2.WatcherConfig) :
  config2.findByPath ws (config2.Path w) = None ->
  config2.findByPath (ws ++ [w]) (config2.Path w) = Some w.
Proof.
  induction ws as [|v ws IH]; cbn [config2.findByPath app].
  - now rewrite String.eqb_refl.
  - destruct (String.eqb (config2.Path v) (config2.Path w));
      [discriminate | exact IH].
Qed.

Lemma removeByPath_filter (ws : list config2.WatcherConfig) (path : string)
  (found : bool) (acc : list config2.WatcherConfig) :
  config2.removeByPath ws path found acc
  = (found || existsb (fun w => String.eqb (config2.Path w) path) ws,
     (acc ++ filter (fun w => negb (String.eqb (config2.Path w) path)) ws)%list).
Proof.
  revert found acc; induction ws as [|w ws IH]; intros found acc;
    cbn [config2.removeByPath existsb filter].
  - now rewrite orb_false_r, app_nil_r.
  - destruct (String.eqb (config2.Path w) path); cbn [negb].
    + rewrite IH. now rewrite orb_true_r.
    + rewrite IH, <- app_assoc. reflexivity.
Qed.

Lemma existsb_path (ws : list config2.WatcherConfig) (path : string) :
  existsb (fun w => String.eqb (config2.Path w) path) ws = true
  <-> In path (map config2.Path ws).
Proof.
  rewrite existsb_exists, in_map_iff. split.
  - intros (w & Hin & E). apply String.eqb_eq in E. eauto.
  - intros (w & E & Hin). exists w. split; [assumption|].
    now apply String.eqb_eq.
Qed.

Lemma filter_fresh (ws : list config2.WatcherConfig) (path : string) :
  ~ In path (map config2.Path ws) ->
  filter (fun w => negb (String.eqb (config2.Path w) path)) ws = ws.
Proof.
  induction ws as [|w ws IH]; cbn [filter map In]; [reflexivity|].
  intros Hn. destruct (String.eqb_spec (config2.Path w) path) as [E|E].
  - exfalso. auto.
  - cbn [negb]. f_equal. apply IH. tauto.
Qed.

Section Registry.

Context {World : Type} `{config2.Store World}.

(** X7: a watcher whose path is already registered is refused: the
    configuration is left as it was and nothing is written. *)
Theorem AddWatcher_refuses_a_registered_path :
  forall (c : config2.Config) (watcher : config2.WatcherConfig)
         (s : State World),
    In (config2.Path watcher) (map config2.Path (config2.Watchers c)) ->
    config2.AddWatcher c watcher s
    = ((c, Some (errorString ("watcher for path " ++ config2.Path watcher
                              ++ " already exists"))), s).
Proof.
  intros c watcher s Hin. unfold config2.AddWatcher.
  destruct (config2.findByPath (config2.Watchers c) (config2.Path watcher))
    eqn:E; [reflexivity|].
  apply findByPath_None in E. contradiction.
Qed.

(** X8: adding keeps the paths of the registry pairwise distinct, and a
    watcher with a fresh path is in the configuration afterwards, found by
    its path, also when writing the file failed. *)
Theorem AddWatcher_keeps_paths_distinct :
  forall (c : config2.Config) (watcher : config2.WatcherConfig)
         (s : State World),
    NoDup (map config2.Path (config2.Watchers c)) ->
    NoDup (map config2.Path
             (config2.Watchers (fst (fst (config2.AddWatcher c watcher s)))))
    /\ (~ In (config2.Path watcher) (map config2.Path (config2.Watchers c)) ->
        config2.GetWatcher (fst (fst (config2.AddWatcher c watcher s)))
          (config2.Path watcher) = inl watcher).
Proof.
  intros c watcher s Hnd. unfold config2.AddWatcher.
  destruct (config2.findByPath (config2.Watchers c) (config2.Path watcher))
    eqn:E.
  - split; [exact Hnd|]. intros Hn. apply findByPath_None in Hn. congruence.
  - unfold bind, config2.Save.
    destruct (config2.persist _ (world s)) as [r w']. cbn [fst config2.Watchers
      config2.withWatchers ret].
    split.
    + rewrite map_app. cbn [map].
      apply NoDup_app; [exact Hnd | apply NoDup_cons; [intros [] | constructor] |].
      intros p Hp [<- | []]. now apply findByPath_None in E.
    + intros _. unfold config2.GetWatcher.
      cbn [config2.Watchers config2.withWatchers].
      now rewrite findByPath_append_fresh.
Qed.

(** X9: removing drops every watcher registered under the path and keeps
    the others in order; afterwards the path is not found. *)
Theorem RemoveWatcher_drops_the_path :
  forall (c : config2.Config) (path : string) (s : State World),
    In path (map config2.Path (config2.Watchers c)) ->
    config2.Watchers (fst (fst (config2.RemoveWatcher c path s)))
    = filter (fun w => negb (String.eqb (config2.Path w) path))
        (config2.Watchers c)
    /\ exists err : error,
         config2.GetWatcher (fst (fst (config2.RemoveWatcher c path s))) path
         = inr err.
Proof.
  intros c path s Hin. unfold config2.RemoveWatcher.
  rewrite removeByPath_filter. cbn [orb app].
  apply existsb_path in Hin. rewrite Hin. cbn [negb].
  unfold bind, config2.Save. destruct (config2.persist _ (world s)) as [r w'].
  cbn [fst ret config2.Watchers config2.withWatchers]. split; [reflexivity|].
  unfold config2.GetWatcher. cbn [config2.Watchers config2.withWatchers].
  destruct (config2.findByPath _ path) as [w|] eqn:E; [|eauto].
  apply findByPath_Some in E as [Hw Hp].
  apply filter_In in Hw as [_ Hw]. rewrite Hp, String.eqb_refl in Hw.
  discriminate.
Qed.

(** X10: removing a path that is not registered fails, changes nothing and
    writes nothing. *)
Theorem RemoveWatcher_of_an_unknown_path :
  forall (c : config2.Config) (path : string) (s : State World),
    ~ In path (map config2.Path (config2.Watchers c)) ->
    config2.RemoveWatcher c path s
    = ((c, Some (errorString ("watcher for path " ++ path ++ " not found"))),
       s).
Proof.
  intros c path s Hn. unfold config2.RemoveWatcher.
  rewrite removeByPath_filter. cbn [orb app].
  destruct (existsb _ (config2.Watchers c)) eqn:E; [|reflexivity].
  apply existsb_path in E. contradiction.
Qed.

(** X11: adding a watcher with a fresh path and removing that path again
    gives back the watchers there were. *)
Theorem RemoveWatcher_undoes_AddWatcher :
  forall (c : config2.Config) (watcher : config2.WatcherConfig)
         (s s' : State World),
    ~ In (config2.Path watcher) (map config2.Path (config2.Watchers c)) ->
    config2.Watchers
      (fst (fst (config2.RemoveWatcher
                   (fst (fst (config2.AddWatcher c watcher s)))
                   (config2.Path watcher) s')))
    = config2.Watchers c.
Proof.
  intros c watcher s s' Hn.
  assert (Hadd : config2.Watchers (fst (fst (config2.AddWatcher c watcher s)))
                 = (config2.Watchers c ++ [watcher])%list).
  { unfold config2.AddWatcher.
    apply findByPath_None in Hn. rewrite Hn.
    unfold bind, config2.Save. now destruct (config2.persist _ (world s)). }
  unfold config2.RemoveWatcher. rewrite Hadd, removeByPath_filter.
  cbn [orb app]. rewrite existsb_app. cbn [existsb].
  rewrite String.eqb_refl, orb_true_r. cbn [negb].
  unfold bind, config2.Save. destruct (config2.persist _ (world s')) as [r w'].
  cbn [fst ret config2.Watchers config2.withWatchers].
  rewrite filter_app, (filter_fresh _ _ Hn). cbn [filter].
  rewrite String.eqb_refl. cbn [negb]. apply app_nil_r.
Qed.

End Registry.

Lemma AddWatcher_refuses_a_registered_path_witness :
  In (config2.Path sample.watcher)
    (map config2.Path (config2.Watchers sample.cfg2))
  /\ config2.AddWatcher (H := sample.store) sample.cfg2 sample.watcher
       (sample.start [])
     = ((sample.cfg2,
         Some (errorString ("watcher for path " ++ config2.Path sample.watcher
                            ++ " already exists"))),
        sample.start []).
Proof.
  assert (Hin : In (config2.Path sample.watcher)
                  (map config2.Path (config2.Watchers sample.cfg2)))
    by (now left).
  split; [exact Hin|].
  exact (AddWatcher_refuses_a_registered_path (H := sample.store)
           sample.cfg2 sample.watcher (sample.start []) Hin).
Defined.

Lemma AddWatcher_keeps_paths_distinct_witness :
  NoDup (map config2.Path (config2.Watchers sample.cfg2))
  /\ ~ In (config2.Path sample.staging)
         (map config2.Path (config2.Watchers sample.cfg2))
  /\ config2.GetWatcher
       (fst (fst (config2.AddWatcher (H := sample.store) sample.cfg2
                    sample.staging (sample.start []))))
       (config2.Path sample.staging)
     = inl sample.staging.
Proof.
  assert (Hnd : NoDup (map config2.Path (config2.Watchers sample.cfg2))).
  { cbn. constructor; [intros [] | constructor]. }
  assert (Hn : ~ In (config2.Path sample.staging)
                 (map config2.Path (config2.Watchers sample.cfg2))).
  { cbn. intros [E | []]. discriminate. }
  split; [exact Hnd | split; [exact Hn |]].
  exact (proj2 (AddWatcher_keeps_paths_distinct (H := sample.store)
                  sample.cfg2 sample.staging (sample.start []) Hnd) Hn).
Defined.

Lemma RemoveWatcher_drops_the_path_witness :
  In "/srv/app" (map config2.Path (config2.Watchers sample.cfg2))
  /\ config2.Watchers
       (fst (fst (config2.RemoveWatcher (H := sample.store) sample.cfg2
                    "/srv/app" (sample.start []))))
     = filter (fun w => negb (String.eqb (config2.Path w) "/srv/app"))
         (config2.Watchers sample.cfg2).
Proof.
  assert (Hin : In "/srv/app" (map config2.Path (config2.Watchers sample.cfg2)))
    by (now left).
  split; [exact Hin|].
  exact (proj1 (RemoveWatcher_drops_the_path (H := sample.store)
                  sample.cfg2 "/srv/app" (sample.start []) Hin)).
Defined.

Lemma RemoveWatcher_of_an_unknown_path_witness :
  ~ In "/srv/other" (map config2.Path (config2.Watchers sample.cfg2))
  /\ config2.RemoveWatcher (H := sample.store) sample.cfg2 "/srv/other"
       (sample.start [])
     = ((sample.cfg2,
         Some (errorString ("watcher for path " ++ "/srv/other" ++ " not found"))),
        sample.start []).
Proof.
  assert (Hn : ~ In "/srv/other"
                 (map config2.Path (config2.Watchers sample.cfg2))).
  { cbn. intros [E | []]. discriminate. }
  split; [exact Hn|].
  exact (RemoveWatcher_of_an_unknown_path (H := sample.store)
           sample.cfg2 "/srv/other" (sample.start []) Hn).
Defined.

Lemma RemoveWatcher_undoes_AddWatcher_witness :
  ~ In (config2.Path sample.staging)
      (map config2.Path (config2.Watchers sample.cfg2))
  /\ config2.Watchers
       (fst (fst (config2.RemoveWatcher (H := sample.store)
                    (fst (fst (config2.AddWatcher (H := sample.store)
                                 sample.cfg2 sample.staging (sample.start []))))
                    (config2.Path sample.staging) (sample.start []))))
     = config2.Watchers sample.cfg2.
Proof.
  assert (Hn : ~ In (config2.Path sample.staging)
                 (map config2.Path (config2.Watchers sample.cfg2))).
  { cbn. intros [E | []]. discriminate. }
  split; [exact Hn|].
  exact (RemoveWatcher_undoes_AddWatcher (H := sample.store)
           sample.cfg2 sample.staging (sample.start []) (sample.start []) Hn).
Defined.

(** ** The pipeline of the webhook handler *)

Lemma mailless_no_mail (evs : list Event) (m : Mail) :
  mailless evs = true -> ~ In (Mailed m) evs.
Proof.
  unfold mailless. rewrite forallb_forall. intros Hall Hin.
  now specialize (Hall _ Hin).
Qed.

Lemma blank_isASCII (command : string) :
  blank command = true -> strings.isASCII command = true.
Proof.
  induction command as [|c command IH]; [reflexivity|].
  cbn [blank strings.isASCII]. intros Hb.
  apply andb_true_iff in Hb as [Hc Hb]. rewrite (IH Hb), andb_true_r.
  clear - Hc. destruct c as [[] [] [] [] [] [] [] []]; try reflexivity;
    discriminate.
Qed.

Lemma blank_fieldsFrom (command : string) (acc : list string) :
  blank command = true -> strings.fieldsFrom command [] acc = rev acc.
Proof.
  revert acc; induction command as [|c command IH]; intros acc; [reflexivity|].
  cbn [blank strings.fieldsFrom]. intros Hb.
  apply andb_true_iff in Hb as [Hc Hb]. rewrite Hc. now apply IH.
Qed.

Section HandlerPipeline.

Context {World : Type} `{GoRuntime} `{OS World}.

Lemma Pull_trace (m : git.Manager) (s : State World) :
  exists evs : list Event,
    trace (snd (git.Pull m s)) = (trace s ++ evs)%list /\ mailless evs = true.
Proof.
  unfold git.Pull. rewrite bind_run.
  destruct (failed (fst (spawn _ (world s)))).
  - eexists. split; reflexivity.
  - rewrite bind_run. cbn [world trace].
    destruct (failed (fst (spawn _ _)));
      eexists; (split; [cbn; now rewrite <- app_assoc | reflexivity]).
Qed.

Lemma Execute_trace (e : executor.Executor) (command : string)
  (s : State World) :
  exists evs : list Event,
    trace (snd (executor.Execute e command s)) = (trace s ++ evs)%list
    /\ mailless evs = true.
Proof.
  unfold executor.Execute. destruct (strings.Fields command) as [|name args].
  - exists []. split; [cbn; now rewrite app_nil_r | reflexivity].
  - destruct (spawn _ (world s)) as [x w'].
    destruct (executor.timerFires _ x (world s)).
    + destruct (started x); eexists;
        (split; [cbn; now rewrite <- ?app_assoc | reflexivity]).
    + destruct (failed x); eexists; (split; [reflexivity | reflexivity]).
Qed.

Lemma processUpdate_trace (h : webhook.Handler) (folder : config.WatchedFolder)
  (s : State World) :
  exists evs : list Event,
    trace (snd (webhook.processUpdate h folder s)) = (trace s ++ evs)%list
    /\ mailless evs = true.
Proof.
  unfold webhook.processUpdate, bind.
  destruct (Pull_trace (git.NewManager (config.Path folder)) s)
    as (evs1 & H1 & M1).
  destruct (git.Pull _ s) as [[err|] s1]; cbn [snd] in H1.
  - exists evs1. split; assumption.
  - destruct (negb (String.eqb (config.Command folder) "")).
    + destruct (Execute_trace (executor.NewExecutor (config.Path folder))
                  (config.Command folder) s1) as (evs2 & H2 & M2).
      destruct (executor.Execute _ _ s1) as [[out [err|]] s2];
        cbn [snd ret] in *; exists (evs1 ++ evs2)%list;
        (split; [now rewrite H2, H1, app_assoc
                | unfold mailless in *; now rewrite forallb_app, M1, M2]).
    + exists evs1. split; assumption.
Qed.

Lemma deploy_trace (h : webhook.Handler) (branch : string)
  (folder : config.WatchedFolder) (s : State World) :
  exists evs : list Event,
    trace (snd (webhook.deploy h branch folder s)) = (trace s ++ evs)%list
    /\ failureMailsOnly branch evs.
Proof.
  unfold webhook.deploy, bind.
  destruct (processUpdate_trace h folder s) as (evs & Ht & Hm).
  destruct (webhook.processUpdate h folder s) as [[err|] s1]; cbn [snd] in Ht.
  - unfold notifier.SendFailureNotification, send, ret.
    destruct (dialAndSend _ (world s1)) as [r w']. cbn [snd trace].
    exists (evs ++ [Mailed (FailureMail (config.Path folder) branch (Error err))])%list.
    split; [now rewrite Ht, app_assoc|].
    intros m Hin. apply in_app_or in Hin as [Hin | [E | []]].
    + now apply mailless_no_mail in Hin.
    + injection E as <-. eauto.
  - exists evs. split; [exact Ht|].
    intros m Hin. now apply mailless_no_mail in Hin.
Qed.

Lemma forEach_trace {A : Type} (P : list Event -> Prop)
  (body : A -> M World unit) (l : list A) (s : State World) :
  P [] ->
  (forall evs1 evs2, P evs1 -> P evs2 -> P (evs1 ++ evs2)%list) ->
  (forall a s', exists evs,
       trace (snd (body a s')) = (trace s' ++ evs)%list /\ P evs) ->
  exists evs : list Event,
    trace (snd (forEach l body s)) = (trace s ++ evs)%list /\ P evs.
Proof.
  intros Hnil Happ Hbody. revert s; induction l as [|a l IH]; intros s.
  - exists []. split; [cbn; now rewrite app_nil_r | exact Hnil].
  - cbn [forEach]. unfold bind.
    destruct (Hbody a s) as (evs1 & H1 & P1).
    destruct (body a s) as [[] s1]. cbn [snd] in H1.
    destruct (IH s1) as (evs2 & H2 & P2).
    exists (evs1 ++ evs2)%list. split; [now rewrite H2, H1, app_assoc | auto].
Qed.

Lemma forEach_skip {A : Type} (body : A -> M World unit) (l : list A)
  (s : State World) :
  (forall a s', In a l -> body a s' = (tt, s')) -> forEach l body s = (tt, s).
Proof.
  revert s; induction l as [|a l IH]; intros s Hbody; [reflexivity|].
  cbn [forEach]. unfold bind. rewrite Hbody by now left.
  apply IH. intros b s' Hin. apply Hbody. now right.
Qed.

(** X12: a push that matches no watched folder has no effect at all: no
    command is started and no mail is sent. *)
Theorem processPushEvent_ignores_an_unmatched_push :
  forall (h : webhook.Handler) (event : webhook.PushEvent) (s : State World),
    (forall folder : config.WatchedFolder,
        In folder (config.Folders (webhook.config h)) ->
        matches event folder = false) ->
    webhook.processPushEvent h event s = (tt, s).
Proof.
  intros h event s Hno. unfold webhook.processPushEvent.
  apply forEach_skip. intros folder s' Hin.
  specialize (Hno folder Hin). unfold matches in Hno.
  destruct (git.CompareURLs _ _); [|reflexivity].
  cbn [andb] in Hno. now rewrite Hno.
Qed.

(** X13: whatever goes wrong, the webhook handler sends generic failure
    mails only: a merge conflict or a failed command is never reported by a
    conflict or a command-failure notification. *)
Theorem processPushEvent_sends_failure_mails_only :
  forall (h : webhook.Handler) (event : webhook.PushEvent) (s : State World),
    exists evs : list Event,
      trace (snd (webhook.processPushEvent h event s)) = (trace s ++ evs)%list
      /\ failureMailsOnly
           (strings.TrimPrefix (webhook.Ref event) "refs/heads/") evs.
Proof.
  intros h event s. unfold webhook.processPushEvent.
  apply forEach_trace.
  - intros m [].
  - intros evs1 evs2 P1 P2 m Hin. apply in_app_or in Hin as [Hin | Hin]; auto.
  - intros folder s'.
    assert (Hskip : exists evs : list Event,
               trace (snd (ret (World := World) tt s')) = (trace s' ++ evs)%list
               /\ failureMailsOnly
                    (strings.TrimPrefix (webhook.Ref event) "refs/heads/") evs).
    { exists []. split; [cbn; now rewrite app_nil_r | intros m []]. }
    destruct (negb (git.CompareURLs _ _)); [exact Hskip|].
    destruct (negb (String.eqb _ _)); [exact Hskip|].
    apply deploy_trace.
Qed.

(** The update of a folder stops at a failed pull: the error is
    returned with the prefix [git pull failed: ] and the state is the one
    the pull left, so the command has not been started. *)
Lemma processUpdate_stops_at_a_failed_pull :
  forall (h : webhook.Handler) (folder : config.WatchedFolder)
         (s s1 : State World) (err : error),
    git.Pull (git.NewManager (config.Path folder)) s = (Some err, s1) ->
    webhook.processUpdate h folder s
    = (Some (errorString ("git pull failed: " ++ Error err)), s1).
Proof.
  intros h folder s s1 err Hp. unfold webhook.processUpdate, bind.
  now rewrite Hp.
Qed.

(** X14: a command of white space only is not empty for the handler, but
    the executor finds no field in it: it starts nothing and fails with
    [empty command], so after a successful pull the update still fails. *)
Theorem blank_command_fails_the_update :
  forall (h : webhook.Handler) (folder : config.WatchedFolder)
         (e : executor.Executor) (s s1 : State World),
    blank (config.Command folder) = true ->
    executor.Execute e (config.Command folder) s
    = (("", Some (errorString "empty command")), s)
    /\ (config.Command folder <> "" ->
        git.Pull (git.NewManager (config.Path folder)) s = (None, s1) ->
        webhook.processUpdate h folder s
        = (Some (errorString "command execution failed: empty command"), s1)).
Proof.
  intros h folder e s s1 Hb.
  assert (Hexec : forall (e' : executor.Executor) (s' : State World),
             executor.Execute e' (config.Command folder) s'
             = (("", Some (errorString "empty command")), s')).
  { intros e' s'. unfold executor.Execute, strings.Fields.
    now rewrite (blank_isASCII _ Hb), (blank_fieldsFrom _ [] Hb). }
  split; [apply Hexec|].
  intros Hne Hp. unfold webhook.processUpdate, bind. rewrite Hp.
  apply String.eqb_neq in Hne. rewrite Hne. cbn [negb].
  now rewrite Hexec.
Qed.

End HandlerPipeline.

Lemma processPushEvent_ignores_an_unmatched_push_witness :
  (forall folder : config.WatchedFolder,
      In folder (config.Folders (webhook.config sample.handler)) ->
      matches (H := sample.runtime) sample.elsewhere folder = false)
  /\ webhook.processPushEvent (H := sample.runtime) (H0 := sample.os)
       sample.handler sample.elsewhere (sample.start [])
     = (tt, sample.start []).
Proof.
  assert (Hno : forall folder : config.WatchedFolder,
             In folder (config.Folders (webhook.config sample.handler)) ->
             matches (H := sample.runtime) sample.elsewhere folder = false).
  { intros folder [<- | [<- | []]]; reflexivity. }
  split; [exact Hno|].
  exact (processPushEvent_ignores_an_unmatched_push
           (H := sample.runtime) (H0 := sample.os)
           sample.handler sample.elsewhere (sample.start []) Hno).
Defined.

Lemma processUpdate_stops_at_a_failed_pull_witness :
  webhook.processUpdate (H := sample.runtime) (H0 := sample.os)
    sample.handler sample.app (sample.start [sample.unreachable])
  = (Some (errorString
             ("git pull failed: "
              ++ Error (errorString
                          ("git fetch failed: " ++ errText sample.unreachable
                           ++ nl ++ "Output: "
                           ++ Combined sample.unreachable)))),
     {| world := [];
        trace := [ Exec {| Name := "git"; Args := ["fetch"; "origin"];
                           Dir := "/srv/app" |} ] |}).
Proof.
  exact (processUpdate_stops_at_a_failed_pull
           (H := sample.runtime) (H0 := sample.os)
           sample.handler sample.app (sample.start [sample.unreachable])
           {| world := [];
              trace := [ Exec {| Name := "git"; Args := ["fetch"; "origin"];
                                 Dir := "/srv/app" |} ] |}
           (errorString ("git fetch failed: " ++ errText sample.unreachable
                         ++ nl ++ "Output: " ++ Combined sample.unreachable))
           eq_refl).
Defined.

Lemma blank_command_fails_the_update_witness :
  blank (config.Command sample.idle) = true
  /\ config.Command sample.idle <> ""
  /\ webhook.processUpdate (H := sample.runtime) (H0 := sample.os)
       sample.handler sample.idle (sample.start [])
     = (Some (errorString "command execution failed: empty command"),
        {| world := [];
           trace := [ Exec {| Name := "git"; Args := ["fetch"; "origin"];
                              Dir := "/srv/idle" |};
                      Exec {| Name := "git"; Args := ["pull"; "origin"];
                              Dir := "/srv/idle" |} ] |}).
Proof.
  assert (Hne : config.Command sample.idle <> "") by discriminate.
  split; [reflexivity | split; [exact Hne |]].
  exact (proj2 (blank_command_fails_the_update
                  (H := sample.runtime) (H0 := sample.os)
                  sample.handler sample.idle
                  (executor.NewExecutor "/srv/idle") (sample.start [])
                  {| world := [];
                     trace := [ Exec {| Name := "git";
                                        Args := ["fetch"; "origin"];
                                        Dir := "/srv/idle" |};
                                Exec {| Name := "git";
                                        Args := ["pull"; "origin"];
                                        Dir := "/srv/idle" |} ] |}
                  eq_refl) Hne eq_refl).
Defined.

(** ** The outcomes of the two synchronisers *)

Section Synchronisers.

Context {World : Type} `{OS World}.

(** X15: the pull of the webhook handler succeeds iff the fetch and the
    pull both succeed, starts no pull after a failed fetch, and never
    returns a conflict error: it does not look at what git printed. *)
Theorem Pull_outcomes :
  forall (m : git.Manager) (s : State World) (fetch pull : Exit)
         (w1 w2 : World),
    spawn {| Name := "git"; Args := ["fetch"; "origin"];
             Dir := git.repoPath m |} (world s) = (fetch, w1) ->
    spawn {| Name := "git"; Args := ["pull"; "origin"];
             Dir := git.repoPath m |} w1 = (pull, w2) ->
    (fst (git.Pull m s) = None <-> failed fetch = false /\ failed pull = false)
    /\ (failed fetch = true ->
        snd (git.Pull m s)
        = {| world := w1;
             trace := (trace s
                       ++ [ Exec {| Name := "git"; Args := ["fetch"; "origin"];
                                    Dir := git.repoPath m |} ])%list |})
    /\ (forall err : error,
           fst (git.Pull m s) = Some err -> git2.IsConflictError err = false).
Proof.
  intros m s fetch pull w1 w2 Hf Hp. unfold git.Pull.
  rewrite bind_run, Hf. cbn [fst snd].
  destruct (failed fetch).
  - split; [|split].
    + split; [discriminate | intros [? _]; discriminate].
    + reflexivity.
    + intros err [= <-]. reflexivity.
  - rewrite bind_run. cbn [world]. rewrite Hp. cbn [fst snd].
    destruct (failed pull); (split; [|split]).
    + split; [discriminate | intros [_ ?]; discriminate].
    + discriminate.
    + intros err [= <-]. reflexivity.
    + split; auto.
    + discriminate.
    + discriminate.
Qed.

(** X16: in the synchroniser of the server a failed fetch is final: the
    error carries what the fetch wrote to its standard error, and no pull
    is started. *)
Theorem FetchAndPull_stops_at_a_failed_fetch :
  forall (m : git2.Manager) (branch : string) (s : State World)
         (fetch : Exit) (w1 : World),
    spawn {| Name := "git"; Args := ["fetch"; "origin"; branch];
             Dir := git2.repoPath m |} (world s) = (fetch, w1) ->
    failed fetch = true ->
    git2.FetchAndPull m branch s
    = (Some (errorString ("git fetch failed: " ++ Stderr fetch)),
       {| world := w1;
          trace := (trace s
                    ++ [ Exec {| Name := "git";
                                 Args := ["fetch"; "origin"; branch];
                                 Dir := git2.repoPath m |} ])%list |}).
Proof.
  intros m branch s fetch w1 Hf Hfail. unfold git2.FetchAndPull.
  rewrite bind_run, Hf. cbn [fst snd]. now rewrite Hfail.
Qed.

(** X17: the synchroniser of the server reports a conflict exactly when
    the fetch succeeded, the pull failed, and the marker is in what the
    pull wrote to its standard error or to its standard output. *)
Theorem FetchAndPull_reports_a_conflict_iff :
  forall (m : git2.Manager) (branch : string) (s : State World)
         (fetch pull : Exit) (w1 w2 : World),
    spawn {| Name := "git"; Args := ["fetch"; "origin"; branch];
             Dir := git2.repoPath m |} (world s) = (fetch, w1) ->
    spawn {| Name := "git"; Args := ["pull"; "origin"; branch];
             Dir := git2.repoPath m |} w1 = (pull, w2) ->
    (exists err : error,
        fst (git2.FetchAndPull m branch s) = Some err
        /\ git2.IsConflictError err = true)
    <-> failed fetch = false
        /\ failed pull = true
        /\ strings.Contains (Stderr pull) "CONFLICT"
           || strings.Contains (Stdout pull) "CONFLICT" = true.
Proof.
  intros m branch s fetch pull w1 w2 Hf Hp. unfold git2.FetchAndPull.
  rewrite bind_run, Hf. cbn [fst snd].
  destruct (failed fetch).
  - split.
    + intros (err & [= <-] & Hc). discriminate.
    + intros [? _]. discriminate.
  - rewrite bind_run. cbn [world]. rewrite Hp. cbn [fst snd].
    destruct (failed pull).
    + destruct (strings.Contains (Stderr pull) "CONFLICT"
                || strings.Contains (Stdout pull) "CONFLICT").
      * split; [auto | intros _; eexists; split; reflexivity].
      * split.
        -- intros (err & [= <-] & Hc). discriminate.
        -- intros (_ & _ & ?). discriminate.
    + split.
      * intros (err & E & _). discriminate.
      * intros (_ & ? & _). discriminate.
Qed.

End Synchronisers.

Lemma Pull_outcomes_witness :
  failed sample.unreachable = true
  /\ snd (git.Pull (H := sample.os) (git.NewManager "/srv/app")
            (sample.start [sample.unreachable; sample.ok]))
     = {| world := [sample.ok];
          trace := ([] ++ [ Exec {| Name := "git"; Args := ["fetch"; "origin"];
                                    Dir := "/srv/app" |} ])%list |}.
Proof.
  split; [reflexivity|].
  exact (proj1 (proj2 (Pull_outcomes (H := sample.os)
                         (git.NewManager "/srv/app")
                         (sample.start [sample.unreachable; sample.ok])
                         sample.unreachable sample.ok [sample.ok] []
                         eq_refl eq_refl)) eq_refl).
Defined.

Lemma FetchAndPull_stops_at_a_failed_fetch_witness :
  failed sample.unreachable = true
  /\ git2.FetchAndPull (H := sample.os) sample.manager "main"
       (sample.start [sample.unreachable; sample.ok])
     = (Some (errorString ("git fetch failed: " ++ Stderr sample.unreachable)),
        {| world := [sample.ok];
           trace := ([] ++ [ Exec {| Name := "git";
                                     Args := ["fetch"; "origin"; "main"];
                                     Dir := "/srv/app" |} ])%list |}).
Proof.
  split; [reflexivity|].
  exact (FetchAndPull_stops_at_a_failed_fetch (H := sample.os)
           sample.manager "main"
           (sample.start [sample.unreachable; sample.ok])
           sample.unreachable [sample.ok] eq_refl eq_refl).
Defined.

Lemma FetchAndPull_reports_a_conflict_iff_witness :
  exists err : error,
    fst (git2.FetchAndPull (H := sample.os) sample.manager "main"
           (sample.start [sample.ok; sample.conflict])) = Some err
    /\ git2.IsConflictError err = true.
Proof.
  apply (proj2 (FetchAndPull_reports_a_conflict_iff (H := sample.os)
                  sample.manager "main"
                  (sample.start [sample.ok; sample.conflict])
                  sample.ok sample.conflict [sample.conflict] []
                  eq_refl eq_refl)).
  repeat split.
Defined.

(** ** What the endpoints hand on *)

Section HandedOn.

Context `{Decoder webhook.PushEvent} `{GoGithub} `{Decoder github.PushEvent}.

(** X18: the webhook handler hands an event to the pipeline only for a
    POST whose body was read, whose signature verifies, whose event type is
    [push] and whose body decodes to that event; the answer is then 200. *)
Theorem ServeHTTP_hands_on_authenticated_pushes_only :
  forall (h : webhook.Handler) (r : http.Request) (event : webhook.PushEvent),
    snd (webhook.ServeHTTP h r) = Some event ->
    http.Method r = "POST"
    /\ http.Header r "X-GitHub-Event" = "push"
    /\ http.StatusCode (fst (webhook.ServeHTTP h r)) = 200%Z
    /\ exists body : string,
         http.Body r = Some body
         /\ webhook.verifySignature h body
              (http.Header r "X-Hub-Signature-256") = true
         /\ Unmarshal body = Some event.
Proof.
  intros h r event. unfold webhook.ServeHTTP, http.MethodPost.
  destruct (String.eqb_spec (http.Method r) "POST") as [Hm|Hm];
    cbn [negb]; [|discriminate].
  destruct (http.Body r) as [body|]; [|discriminate].
  destruct (webhook.verifySignature h body _) eqn:Hv; cbn [negb];
    [|discriminate].
  destruct (String.eqb_spec (http.Header r "X-GitHub-Event") "push") as [He|He];
    cbn [negb]; [|discriminate].
  destruct (Unmarshal body) as [ev|] eqn:Hu; [|discriminate].
  cbn [fst snd]. intros [= <-]. repeat split; auto. exists body. auto.
Qed.

(** X19: the same for the endpoint of the server, with the signature
    validated by go-github. *)
Theorem handleWebhook_hands_on_authenticated_pushes_only :
  forall (srv : server.Server) (r : http.Request) (event : github.PushEvent),
    snd (server.handleWebhook srv r) = Some event ->
    http.Method r = "POST"
    /\ http.Header r "X-GitHub-Event" = "push"
    /\ http.StatusCode (fst (server.handleWebhook srv r)) = 200%Z
    /\ exists payload : string,
         http.Body r = Some payload
         /\ github.ValidateWebhookSignature payload
              (http.Header r "X-Hub-Signature-256")
              (config2.WebhookSecret (config2.GitHub (server.config srv)))
            = true
         /\ Unmarshal payload = Some event.
Proof.
  intros srv r event. unfold server.handleWebhook, http.MethodPost.
  destruct (String.eqb_spec (http.Method r) "POST") as [Hm|Hm];
    cbn [negb]; [|discriminate].
  destruct (http.Body r) as [payload|]; [|discriminate].
  destruct (github.ValidateWebhookSignature payload _ _) eqn:Hv; cbn [negb];
    [|discriminate].
  destruct (String.eqb_spec (http.Header r "X-GitHub-Event") "push") as [He|He];
    cbn [negb]; [|discriminate].
  destruct (Unmarshal payload) as [ev|] eqn:Hu; [|discriminate].
  cbn [fst snd]. intros [= <-]. repeat split; auto. exists payload. auto.
Qed.

End HandedOn.

Lemma ServeHTTP_hands_on_authenticated_pushes_only_witness :
  snd (webhook.ServeHTTP (H := sample.decoder) sample.handler sample.delivery)
  = Some sample.push
  /\ http.StatusCode
       (fst (webhook.ServeHTTP (H := sample.decoder) sample.handler
               sample.delivery)) = 200%Z.
Proof.
  assert (Hs : snd (webhook.ServeHTTP (H := sample.decoder) sample.handler
                      sample.delivery) = Some sample.push)
    by (vm_compute; reflexivity).
  split; [exact Hs|].
  exact (proj1 (proj2 (proj2 (ServeHTTP_hands_on_authenticated_pushes_only
                                (H := sample.decoder) sample.handler
                                sample.delivery sample.push Hs)))).
Defined.

Lemma handleWebhook_hands_on_authenticated_pushes_only_witness :
  snd (server.handleWebhook (H := sample.gogithub) (H0 := sample.decoder2)
         sample.srv sample.delivery)
  = Some sample.pushed
  /\ http.StatusCode
       (fst (server.handleWebhook (H := sample.gogithub) (H0 := sample.decoder2)
               sample.srv sample.delivery)) = 200%Z.
Proof.
  assert (Hs : snd (server.handleWebhook (H := sample.gogithub)
                      (H0 := sample.decoder2) sample.srv sample.delivery)
               = Some sample.pushed)
    by (vm_compute; reflexivity).
  split; [exact Hs|].
  exact (proj1 (proj2 (proj2 (handleWebhook_hands_on_authenticated_pushes_only
                                (H0 := sample.gogithub) (H1 := sample.decoder2)
                                sample.srv sample.delivery sample.pushed Hs)))).
Defined.

(** ** The pipeline of the server, again *)

Section ServerRuns.

Context {World : Type} `{GoRuntime} `{OS World}.

(** X20: a push is dropped without any effect when no watcher has its
    owner and name, and also when the first watcher that has them follows
    another branch, whatever the watchers after it follow. *)
Theorem handlePushEvent_drops_other_pushes :
  forall (srv : server.Server) (event : github.PushEvent) (s : State World),
    (forall watcher : config2.WatcherConfig,
        config2.findByRepo (config2.Watchers (server.config srv))
          (github.GetRepoOwnerLogin event) (github.GetRepoName event)
        = Some watcher ->
        config2.Branch watcher
        <> server.extractBranchFromRef (github.GetRef event)) ->
    server.handlePushEvent srv event s = (tt, s).
Proof.
  intros srv event s Hfirst.
  unfold server.handlePushEvent, config2.GetWatcherByRepo.
  destruct (config2.findByRepo _ _ _) as [watcher|]; [|reflexivity].
  specialize (Hfirst watcher eq_refl). apply String.eqb_neq in Hfirst.
  now rewrite Hfirst.
Qed.

(** X21: when the directory of the matched watcher has no [.git], one
    failure mail saying so is sent and git is not started. *)
Theorem handlePushEvent_without_a_repository :
  forall (srv : server.Server) (event : github.PushEvent)
         (watcher : config2.WatcherConfig) (s : State World),
    config2.GetWatcherByRepo (server.config srv)
      (github.GetRepoOwnerLogin event) (github.GetRepoName event)
    = inl watcher ->
    config2.Branch watcher = server.extractBranchFromRef (github.GetRef event) ->
    notExist (filepathJoin (config2.Path watcher) ".git") (world s) = true ->
    trace (snd (server.handlePushEvent srv event s))
    = (trace s
       ++ [ Mailed (FailureMail (config2.Path watcher)
                      (server.extractBranchFromRef (github.GetRef event))
                      ("not a git repository: " ++ config2.Path watcher)) ])%list.
Proof.
  intros srv event watcher s Hw Hb Hmiss.
  unfold server.handlePushEvent. rewrite Hw, Hb, String.eqb_refl. cbn [negb].
  unfold bind at 1. unfold git2.NewManager, bind, stat_notExist.
  rewrite Hmiss. unfold ret, email.SendFailureNotification, send.
  cbn [Error]. now destruct (dialAndSend _ (world s)).
Qed.

(** X22: after a successful synchronisation the server runs the command,
    if there is one, once, as [sh -c command] in the directory of the
    watcher; a failure of it is mailed with the command and what it wrote to
    each stream, and with an empty command nothing more happens. *)
Theorem handlePushEvent_after_a_successful_pull :
  forall (srv : server.Server) (event : github.PushEvent)
         (watcher : config2.WatcherConfig) (gitMgr : git2.Manager)
         (s s1 s2 : State World) (x : Exit) (w3 : World),
    config2.GetWatcherByRepo (server.config srv)
      (github.GetRepoOwnerLogin event) (github.GetRepoName event)
    = inl watcher ->
    config2.Branch watcher = server.extractBranchFromRef (github.GetRef event) ->
    git2.NewManager (config2.Path watcher) s = (inl gitMgr, s1) ->
    git2.FetchAndPull gitMgr
      (server.extractBranchFromRef (github.GetRef event)) s1 = (None, s2) ->
    spawn {| Name := "sh"; Args := ["-c"; config2.Command watcher];
             Dir := config2.Path watcher |} (world s2) = (x, w3) ->
    (config2.Command watcher = "" ->
     server.handlePushEvent srv event s = (tt, s2))
    /\ (config2.Command watcher <> "" ->
        trace (snd (server.handlePushEvent srv event s))
        = (trace s2
           ++ Exec {| Name := "sh"; Args := ["-c"; config2.Command watcher];
                      Dir := config2.Path watcher |}
           :: (if failed x
               then [ Mailed (CommandFailureMail (config2.Path watcher)
                                (server.extractBranchFromRef (github.GetRef event))
                                (config2.Command watcher)
                                (Error (CommandError (config2.Command watcher)
                                          (Stdout x) (Stderr x) (errText x)))) ]
               else []))%list).
Proof.
  intros srv event watcher gitMgr s s1 s2 x w3 Hw Hb Hm Hsync Hx.
  split.
  - intros Hc. unfold server.handlePushEvent.
    rewrite Hw, Hb, String.eqb_refl. cbn [negb].
    unfold bind at 1. rewrite Hm. unfold bind at 1. rewrite Hsync.
    now rewrite Hc.
  - intros Hne. apply String.eqb_neq in Hne. unfold server.handlePushEvent.
    rewrite Hw, Hb, String.eqb_refl. cbn [negb].
    unfold bind at 1. rewrite Hm. unfold bind at 1. rewrite Hsync.
    rewrite Hne. cbn [negb].
    unfold executor2.Execute, executor2.NewExecutor.
    cbn [executor2.workDir]. unfold bind, run. rewrite Hx.
    destruct (failed x).
    + unfold ret, email.SendCommandFailureNotification, send.
      cbn [world trace].
      destruct (dialAndSend _ w3). cbn [snd trace].
      now rewrite <- app_assoc.
    + reflexivity.
Qed.

End ServerRuns.

Lemma handlePushEvent_drops_other_pushes_witness :
  (forall watcher : config2.WatcherConfig,
      config2.findByRepo (config2.Watchers (server.config sample.srv3))
        (github.GetRepoOwnerLogin sample.pushedDevelop)
        (github.GetRepoName sample.pushedDevelop)
      = Some watcher ->
      config2.Branch watcher
      <> server.extractBranchFromRef (github.GetRef sample.pushedDevelop))
  /\ In sample.staging (config2.Watchers (server.config sample.srv3))
  /\ config2.Branch sample.staging
     = server.extractBranchFromRef (github.GetRef sample.pushedDevelop)
  /\ server.handlePushEvent (H := sample.runtime) (H0 := sample.os)
       sample.srv3 sample.pushedDevelop (sample.start [])
     = (tt, sample.start []).
Proof.
  assert (Hfirst : forall watcher : config2.WatcherConfig,
             config2.findByRepo (config2.Watchers (server.config sample.srv3))
               (github.GetRepoOwnerLogin sample.pushedDevelop)
               (github.GetRepoName sample.pushedDevelop)
             = Some watcher ->
             config2.Branch watcher
             <> server.extractBranchFromRef
                  (github.GetRef sample.pushedDevelop)).
  { intros watcher [= <-]. discriminate. }
  split; [exact Hfirst | split; [right; now left | split; [reflexivity |]]].
  exact (handlePushEvent_drops_other_pushes
           (H := sample.runtime) (H0 := sample.os)
           sample.srv3 sample.pushedDevelop (sample.start []) Hfirst).
Defined.

Lemma handlePushEvent_without_a_repository_witness :
  trace (snd (server.handlePushEvent (H := sample.runtime) (H0 := sample.bare)
                sample.srv sample.pushed (sample.start [])))
  = ([] ++ [ Mailed (FailureMail (config2.Path sample.watcher)
                       (server.extractBranchFromRef
                          (github.GetRef sample.pushed))
                       ("not a git repository: "
                        ++ config2.Path sample.watcher)) ])%list.
Proof.
  exact (handlePushEvent_without_a_repository
           (H := sample.runtime) (H0 := sample.bare)
           sample.srv sample.pushed sample.watcher (sample.start [])
           eq_refl eq_refl eq_refl).
Defined.

Lemma handlePushEvent_after_a_successful_pull_witness :
  config2.Command sample.watcher <> ""
  /\ trace (snd (server.handlePushEvent (H := sample.runtime)
                   (H0 := sample.os) sample.srv sample.pushed
                   (sample.start [sample.ok; sample.ok; sample.failing])))
     = [ Exec {| Name := "git"; Args := ["fetch"; "origin"; "main"];
                 Dir := "/srv/app" |};
         Exec {| Name := "git"; Args := ["pull"; "origin"; "main"];
                 Dir := "/srv/app" |};
         Exec {| Name := "sh"; Args := ["-c"; "make deploy"];
                 Dir := "/srv/app" |};
         Mailed (CommandFailureMail "/srv/app" "main" "make deploy"
                   (Error (CommandError "make deploy" (Stdout sample.failing)
                             (Stderr sample.failing)
                             (errText sample.failing)))) ].
Proof.
  assert (Hne : config2.Command sample.watcher <> "") by discriminate.
  split; [exact Hne|].
  exact (proj2 (handlePushEvent_after_a_successful_pull
                  (H := sample.runtime) (H0 := sample.os)
                  sample.srv sample.pushed sample.watcher sample.manager
                  (sample.start [sample.ok; sample.ok; sample.failing])
                  (sample.start [sample.ok; sample.ok; sample.failing])
                  {| world := [sample.failing];
                     trace := [ Exec {| Name := "git";
                                        Args := ["fetch"; "origin"; "main"];
                                        Dir := "/srv/app" |};
                                Exec {| Name := "git";
                                        Args := ["pull"; "origin"; "main"];
                                        Dir := "/srv/app" |} ] |}
                  sample.failing []
                  eq_refl eq_refl eq_refl eq_refl eq_refl) Hne).
Defined.

(** ** Owner and name of a repository *)

Lemma Split_without_separator (s : string) :
  strings.Contains s "/" = false -> strings.Split s "/"%char = [s].
Proof.
  induction s as [|c s IH]; [reflexivity|].
  cbn [strings.Contains strings.Split]. intros Hc.
  apply orb_false_iff in Hc as [Hc Hs].
  cbn [strings.HasPrefix] in Hc. rewrite andb_true_r in Hc.
  rewrite Hc, (IH Hs). reflexivity.
Qed.

Lemma Split_at_separator (a b : string) :
  strings.Contains a "/" = false ->
  strings.Split (a ++ "/" ++ b) "/"%char = a :: strings.Split b "/"%char.
Proof.
  induction a as [|c a IH]; [reflexivity|].
  cbn [strings.Contains]. intros Hc.
  apply orb_false_iff in Hc as [Hc Ha].
  cbn [strings.HasPrefix] in Hc. rewrite andb_true_r in Hc.
  cbn [append strings.Split]. rewrite Hc.
  change (a ++ String "/" b) with (a ++ "/" ++ b).
  now rewrite (IH Ha).
Qed.

(** X23: the HTTPS URL and the SSH shorthand of a GitHub repository, each
    with its [.git], parse to the same owner and name. *)
Theorem ParseRepoInfo_of_both_forms :
  forall owner repo : string,
    strings.Contains owner "/" = false ->
    strings.Contains repo "/" = false ->
    git2.ParseRepoInfo ("https://github.com/" ++ owner ++ "/" ++ repo ++ ".git")
    = (owner, repo, None)
    /\ git2.ParseRepoInfo ("git@github.com:" ++ owner ++ "/" ++ repo ++ ".git")
       = (owner, repo, None).
Proof.
  intros owner repo Ho Hr.
  assert (Hsplit : strings.Split (owner ++ "/" ++ repo) "/"%char
                   = [owner; repo]).
  { now rewrite Split_at_separator, Split_without_separator. }
  split; unfold git2.ParseRepoInfo.
  - replace ("https://github.com/" ++ owner ++ "/" ++ repo ++ ".git")
      with (("https://github.com/" ++ owner ++ "/" ++ repo) ++ ".git")
      by (now rewrite !append_assoc).
    rewrite TrimSuffix_append, HasPrefix_append, TrimPrefix_append, Hsplit.
    reflexivity.
  - replace ("git@github.com:" ++ owner ++ "/" ++ repo ++ ".git")
      with (("git@github.com:" ++ owner ++ "/" ++ repo) ++ ".git")
      by (now rewrite !append_assoc).
    rewrite TrimSuffix_append.
    change (strings.HasPrefix ("git@github.com:" ++ owner ++ "/" ++ repo)
              "https://github.com/") with false.
    cbv iota.
    rewrite HasPrefix_append, TrimPrefix_append, Hsplit.
    reflexivity.
Qed.

Lemma ParseRepoInfo_of_both_forms_witness :
  strings.Contains "owner" "/" = false
  /\ strings.Contains "repo" "/" = false
  /\ git2.ParseRepoInfo ("https://github.com/" ++ "owner" ++ "/" ++ "repo"
                         ++ ".git") = ("owner", "repo", None)
  /\ git2.ParseRepoInfo ("git@github.com:" ++ "owner" ++ "/" ++ "repo"
                         ++ ".git") = ("owner", "repo", None).
Proof.
  split; [reflexivity | split; [reflexivity |]].
  exact (ParseRepoInfo_of_both_forms "owner" "repo" eq_refl eq_refl).
Defined.

(** A URL with an owner and no name, and a URL of another host, do not
    parse; the error quotes the URL without its [.git]. *)
Example ParseRepoInfo_failures :
  git2.ParseRepoInfo "https://github.com/owner.git"
  = ("", "", Some (errorString
                     "unable to parse repository info from URL: https://github.com/owner"))
  /\ git2.ParseRepoInfo "https://gitlab.com/owner/repo"
     = ("", "", Some (errorString
                        "unable to parse repository info from URL: https://gitlab.com/owner/repo")).
Proof. split; reflexivity. Qed.
